(** * Checkout-to-download token lifecycle of the digital products API

    A shallow embedding of [main.py]: the [checkout] and [download]
    handlers, the document store they read and write, the SHA-256
    derivation of invoice numbers and download tokens, and the
    properties of the specification that concern them. *)

From Stdlib Require Import NArith ZArith Ascii List Lia.
From Stdlib Require Strings.Byte.
From Stdlib Require Floats.PrimFloat.
From stdpp Require Import gmap strings list fin_maps.

(** ** Hexadecimal text

    Lower-case hexadecimal digits, as [binascii.hexlify] and
    [hexdigest] write them, and the reading of a digit of either case,
    as [bytes.fromhex] accepts it. *)

Module Hex.

Local Open Scope N_scope.

Definition hex_digit (d : N) : ascii :=
  ascii_of_N (if d <? 10 then 48 + d else 87 + d).

Definition hex_byte (b : N) (k : string) : string :=
  String (hex_digit (N.shiftr b 4)) (String (hex_digit (N.land b 0xF)) k).

Definition hexval (c : ascii) : option N :=
  let n := N_of_ascii c in
  if (48 <=? n) && (n <=? 57) then Some (n - 48)
  else if (97 <=? n) && (n <=? 102) then Some (n - 87)
  else if (65 <=? n) && (n <=? 70) then Some (n - 55)
  else None.

End Hex.

(** ** hashlib.sha256

    FIPS 180-4 SHA-256 over 32-bit words held in [N]; every addition is
    reduced modulo [2^32] explicitly. *)

Module SHA256.

Local Open Scope N_scope.

Definition mask32 : N := 0xFFFFFFFF.

Definition add32 (x y : N) : N := N.land (x + y) mask32.

Definition rotr (n x : N) : N :=
  N.lor (N.shiftr x n) (N.land (N.shiftl x (32 - n)) mask32).

Definition shr (n x : N) : N := N.shiftr x n.

Definition not32 (x : N) : N := N.lxor x mask32.

Definition Ch (x y z : N) : N := N.lxor (N.land x y) (N.land (not32 x) z).

Definition Maj (x y z : N) : N :=
  N.lxor (N.lxor (N.land x y) (N.land x z)) (N.land y z).

Definition Sigma0 (x : N) : N := N.lxor (N.lxor (rotr 2 x) (rotr 13 x)) (rotr 22 x).
Definition Sigma1 (x : N) : N := N.lxor (N.lxor (rotr 6 x) (rotr 11 x)) (rotr 25 x).
Definition sigma0 (x : N) : N := N.lxor (N.lxor (rotr 7 x) (rotr 18 x)) (shr 3 x).
Definition sigma1 (x : N) : N := N.lxor (N.lxor (rotr 17 x) (rotr 19 x)) (shr 10 x).

(** The round constants and the initial hash value, as FIPS 180-4
    defines them: the first 32 bits of the fractional parts of the cube
    roots of the first 64 primes, and of the square roots of the first
    8 primes. *)
Definition primes : list N :=
  [ 2; 3; 5; 7; 11; 13; 17; 19; 23; 29; 31; 37; 41; 43; 47; 53;
    59; 61; 67; 71; 73; 79; 83; 89; 97; 101; 103; 107; 109; 113; 127; 131;
    137; 139; 149; 151; 157; 163; 167; 173; 179; 181; 191; 193; 197; 199; 211; 223;
    227; 229; 233; 239; 241; 251; 257; 263; 269; 271; 277; 281; 283; 293; 307; 311 ].

(** The integer cube root, one bit at a time from bit [b - 1] down. *)
Fixpoint cbrt_bits (b : nat) (n r : N) : N :=
  match b with
  | O => r
  | S b' =>
      let c := r + N.shiftl 1 (N.of_nat b') in
      cbrt_bits b' n (if c * c * c <=? n then c else r)
  end.

Definition frac_cbrt (p : N) : N := N.land (cbrt_bits 36 (N.shiftl p 96) 0) mask32.

Definition frac_sqrt (p : N) : N := N.land (N.sqrt (N.shiftl p 64)) mask32.

Definition K : list N := Eval vm_compute in map frac_cbrt primes.

(** The eight working variables / chaining values. *)
Record state : Type := State
  { sa : N; sb : N; sc : N; sd : N; se : N; sf : N; sg : N; sh : N }.

Definition H0 : state :=
  Eval vm_compute in
  State (frac_sqrt 2) (frac_sqrt 3) (frac_sqrt 5) (frac_sqrt 7)
        (frac_sqrt 11) (frac_sqrt 13) (frac_sqrt 17) (frac_sqrt 19).

(** Message schedule.  [w] holds the words produced so far, most recent
    first, so that [W(t-2)], [W(t-7)], [W(t-15)] and [W(t-16)] sit at
    positions 1, 6, 14 and 15. *)
Fixpoint extend (n : nat) (w : list N) : list N :=
  match n with
  | O => w
  | S n' =>
      let wt := add32 (add32 (sigma1 (nth 1 w 0)) (nth 6 w 0))
                      (add32 (sigma0 (nth 14 w 0)) (nth 15 w 0)) in
      extend n' (wt :: w)
  end.

Definition schedule (block : list N) : list N := rev (extend 48 (rev block)).

Definition round (s : state) (kw : N * N) : state :=
  let t1 := add32 (add32 (add32 (sh s) (Sigma1 (se s))) (Ch (se s) (sf s) (sg s)))
                  (add32 (fst kw) (snd kw)) in
  let t2 := add32 (Sigma0 (sa s)) (Maj (sa s) (sb s) (sc s)) in
  State (add32 t1 t2) (sa s) (sb s) (sc s) (add32 (sd s) t1) (se s) (sf s) (sg s).

Definition compress (h : state) (block : list N) : state :=
  let s := fold_left round (combine K (schedule block)) h in
  State (add32 (sa h) (sa s)) (add32 (sb h) (sb s)) (add32 (sc h) (sc s))
        (add32 (sd h) (sd s)) (add32 (se h) (se s)) (add32 (sf h) (sf s))
        (add32 (sg h) (sg s)) (add32 (sh h) (sh s)).

(** Padding: a [0x80] byte, zero bytes up to 56 modulo 64, and the bit
    length of the message as a 64-bit big-endian integer. *)
Fixpoint be_bytes (n : nat) (x : N) : list N :=
  match n with
  | O => []
  | S n' => N.land (N.shiftr x (8 * N.of_nat n')) 0xFF :: be_bytes n' x
  end.

Definition pad (msg : list N) : list N :=
  let l := N.of_nat (length msg) in
  let z := (119 - l mod 64) mod 64 in
  msg ++ 0x80 :: repeat 0 (N.to_nat z) ++ be_bytes 8 (8 * l).

Fixpoint be_words (n : nat) (bs : list N) : list N :=
  match n, bs with
  | S n', b0 :: b1 :: b2 :: b3 :: bs' =>
      (N.shiftl b0 24 + N.shiftl b1 16 + N.shiftl b2 8 + b3) :: be_words n' bs'
  | _, _ => []
  end.

Fixpoint blocks (n : nat) (bs : list N) : list (list N) :=
  match n with
  | O => []
  | S n' => be_words 16 (firstn 64 bs) :: blocks n' (skipn 64 bs)
  end.

Definition hash (msg : list N) : state :=
  let p := pad msg in
  fold_left compress (blocks (length p / 64) p) H0.

Definition hex_word (w : N) (k : string) : string :=
  Hex.hex_byte (N.land (N.shiftr w 24) 0xFF)
    (Hex.hex_byte (N.land (N.shiftr w 16) 0xFF)
      (Hex.hex_byte (N.land (N.shiftr w 8) 0xFF)
        (Hex.hex_byte (N.land w 0xFF) k))).

Definition hex_state (s : state) : string :=
  hex_word (sa s) (hex_word (sb s) (hex_word (sc s) (hex_word (sd s)
    (hex_word (se s) (hex_word (sf s) (hex_word (sg s) (hex_word (sh s) ""))))))).

(** [str.encode()]: texts are held as their UTF-8 bytes. *)
Definition encode (s : string) : list N := map N_of_ascii (String.list_ascii_of_string s).

(** [hashlib.sha256(s.encode()).hexdigest()] *)
Definition hexdigest (s : string) : string := hex_state (hash (encode s)).

End SHA256.


(** ** bson.objectid.ObjectId

    A store key is the 12-byte value an [ObjectId] wraps.  [ObjectId(s)]
    on a text accepts 24 hexadecimal digits (of either case) and raises
    [InvalidId] on anything else; [str(oid)] is the lower-case
    hexadecimal text of the bytes.  (bson decodes the 24 characters with
    [bytes.fromhex], which also skips ASCII white space and then yields
    fewer than 12 bytes; such texts are rejected here.) *)

Definition ObjectId : Type := list Byte.byte.

#[global] Instance byte_eq_dec : EqDecision Byte.byte := Byte.byte_eq_dec.

#[global] Instance byte_countable : Countable Byte.byte :=
  inj_countable Byte.to_N Byte.of_N Byte.of_to_N.

Fixpoint fromhex (s : string) : option (list Byte.byte) :=
  match s with
  | EmptyString => Some []
  | String _ EmptyString => None
  | String c (String d s') =>
      match Hex.hexval c, Hex.hexval d with
      | Some h, Some l =>
          match Byte.of_N (16 * h + l), fromhex s' with
          | Some b, Some bs => Some (b :: bs)
          | _, _ => None
          end
      | _, _ => None
      end
  end.

Fixpoint hexlify (bs : list Byte.byte) : string :=
  match bs with
  | [] => EmptyString
  | b :: bs' => Hex.hex_byte (Byte.to_N b) (hexlify bs')
  end.

Definition ObjectId_of_str (s : string) : option ObjectId :=
  if decide (String.length s = 24%nat) then fromhex s else None.

Definition str_of_ObjectId (oid : ObjectId) : string := hexlify oid.

(** ** Python values the handlers pass around *)

(** A Python [float].  The handlers never compute with one: they copy
    it ([float(x)] on a float) and print it.  It is held as the text
    [str()] gives for it, which determines the float. *)
Record pyfloat : Type := PyFloat { float_str : string }.

(** A [datetime], as microseconds since the epoch. *)
Definition datetime : Type := Z.

(** [s[:n]] *)
Definition str_take (n : nat) (s : string) : string := String.substring 0 n s.

(** [str.upper()] on ASCII text: [checkout] applies it to hexadecimal
    digests; the statements below apply it to ASCII texts only. *)
Definition upper_ascii (c : ascii) : ascii :=
  let n := N_of_ascii c in
  if ((97 <=? n) && (n <=? 122))%N then ascii_of_N (n - 32) else c.

Fixpoint upper (s : string) : string :=
  match s with
  | EmptyString => EmptyString
  | String c s' => String (upper_ascii c) (upper s')
  end.

Definition nl : string := String (ascii_of_N 10) EmptyString.

(** ** Documents and request models *)

Module Product.
(** A document of the [product] collection, as [create_product]
    stores it ([ProductIn.model_dump()]); its [_id] is the key under
    which the collection holds it. *)
Record t : Type := mk
  { title : string;
    description : option string;
    price : pyfloat;
    file_url : string }.
End Product.

Module Order.
(** The [order] dict that [checkout] inserts. *)
Record t : Type := mk
  { product_id : string;
    product_title : string;
    buyer_email : string;
    amount : pyfloat;
    currency : string;
    invoice_number : string;
    download_url : string;
    created_at : datetime }.
End Order.

Module CheckoutIn.
Record t : Type := mk
  { product_id : string;
    buyer_email : string }.
End CheckoutIn.

Module OrderOut.
Record t : Type := mk
  { id : string;
    invoice_number : string;
    download_url : string }.
End OrderOut.

(** ** The document store

    [db["product"]] is keyed by [_id]; [db["order"]] keeps its documents
    in insertion order, which is the order in which [find_one] scans
    them. *)
Record Database : Type := mkDatabase
  { db_product : gmap ObjectId Product.t;
    db_order : list (ObjectId * Order.t) }.

(** What a request reads from outside the store: the clock, the key the
    store assigns to the inserted order, and what becomes of a [print]
    to the console ([None]: it returns; [Some e]: it raises [e]). *)
Inductive exception : Type :=
  | HTTPException (status_code : N) (detail : string)
  | InvalidId (oid : string)
  | OtherException (name : string).

Record Env : Type := mkEnv
  { time_time : pyfloat;
    datetime_now : datetime;
    inserted_id : ObjectId;
    print : string → option exception }.

(** ** Handlers as store transformers that return or raise *)

Inductive result (A : Type) : Type :=
  | Return (a : A)
  | Raise (e : exception).
Arguments Return {A} a.
Arguments Raise {A} e.

Definition M (A : Type) : Type := Database → result A * Database.

#[global] Instance M_ret : MRet M := λ A a db, (Return a, db).

#[global] Instance M_bind : MBind M := λ A B f m db,
  match m db with
  | (Return a, db') => f a db'
  | (Raise e, db') => (Raise e, db')
  end.

Definition raise {A : Type} (e : exception) : M A := λ db, (Raise e, db).

(** [try: m  except Exception: h] *)
Definition try_except {A : Type} (m : M A) (h : exception → M A) : M A := λ db,
  match m db with
  | (Return a, db') => (Return a, db')
  | (Raise e, db') => h e db'
  end.

(** [ObjectId(s)] *)
Definition ObjectId_ (s : string) : M ObjectId :=
  match ObjectId_of_str s with
  | Some oid => mret oid
  | None => raise (InvalidId s)
  end.

(** [db["product"].find_one({"_id": oid})]: the document with its key. *)
Definition find_one_product (oid : ObjectId) : M (option (ObjectId * Product.t)) := λ db,
  (Return ((λ p, (oid, p)) <$> db_product db !! oid), db).

(** [db["order"].find_one({"download_url": url})]: the first match. *)
Definition find_one_order (url : string) : M (option (ObjectId * Order.t)) := λ db,
  (Return (find (λ d, String.eqb (Order.download_url d.2) url) (db_order db)), db).

(** [db["order"].insert_one(order).inserted_id] *)
Definition insert_one_order (env : Env) (order : Order.t) : M ObjectId := λ db,
  (Return (inserted_id env),
   {| db_product := db_product db;
      db_order := db_order db ++ [(inserted_id env, order)] |}).

(** The text [send_email] prints. *)
Definition email_text (to_email subject body : string) : string :=
  nl +:+ "--- EMAIL ---" +:+ nl +:+ "To: " +:+ to_email +:+ nl
  +:+ "Subject: " +:+ subject +:+ nl +:+ nl +:+ body +:+ nl
  +:+ "--------------" +:+ nl.

(** [send_email]: one [print] to the console. *)
Definition send_email (env : Env) (to_email subject body : string) : M unit := λ db,
  match print env (email_text to_email subject body) with
  | None => (Return tt, db)
  | Some e => (Raise e, db)
  end.

(** The values [checkout] derives, named as its local variables. *)
Definition invoice_seed (buyer_email : string) (now : pyfloat) (product_id : string) : string :=
  buyer_email +:+ "-" +:+ float_str now +:+ "-" +:+ product_id.

Definition invoice_number (seed : string) : string :=
  upper (str_take 10 (SHA256.hexdigest seed)).

Definition token (invoice_number buyer_email : string) : string :=
  SHA256.hexdigest (invoice_number +:+ "-" +:+ buyer_email).

Definition download_url (token : string) : string := "/download/" +:+ token.

(** [subject] and [body] of the notification, from the [order] dict. *)
Definition subject_of (order : Order.t) : string :=
  "Your invoice #" +:+ Order.invoice_number order.

Definition body_of (order : Order.t) : string :=
  "Thanks for your purchase!" +:+ nl +:+ nl
  +:+ "Product: " +:+ Order.product_title order +:+ nl
  +:+ "Amount: $" +:+ float_str (Order.amount order) +:+ " " +:+ Order.currency order +:+ nl
  +:+ "Invoice: " +:+ Order.invoice_number order +:+ nl +:+ nl
  +:+ "Download your file: " +:+ Order.download_url order +:+ nl.

(** [POST /checkout] *)
Definition checkout (env : Env) (payload : CheckoutIn.t) : M OrderOut.t :=
  prod ← try_except
            (oid ← ObjectId_ (CheckoutIn.product_id payload);
             find_one_product oid)
            (λ _, mret None);
  match prod with
  | None => raise (HTTPException 404 "Product not found")
  | Some prod =>
      let seed := invoice_seed (CheckoutIn.buyer_email payload) (time_time env)
                    (CheckoutIn.product_id payload) in
      let inv := invoice_number seed in
      let tok := token inv (CheckoutIn.buyer_email payload) in
      let url := download_url tok in
      let order :=
        {| Order.product_id := str_of_ObjectId prod.1;
           Order.product_title := Product.title prod.2;
           Order.buyer_email := CheckoutIn.buyer_email payload;
           Order.amount := Product.price prod.2;  (* float(prod.get("price", 0)) *)
           Order.currency := "USD";
           Order.invoice_number := inv;
           Order.download_url := url;
           Order.created_at := datetime_now env |} in
      oid ← insert_one_order env order;
      send_email env (CheckoutIn.buyer_email payload) (subject_of order) (body_of order);;
      mret {| OrderOut.id := str_of_ObjectId oid;
              OrderOut.invoice_number := inv;
              OrderOut.download_url := url |}
  end.

(** [GET /download/{token}]; the result is the value of ["file_url"]. *)
Definition download (token : string) : M string :=
  order ← find_one_order ("/download/" +:+ token);
  match order with
  | None => raise (HTTPException 404 "Invalid token")
  | Some order =>
      oid ← ObjectId_ (Order.product_id order.2);
      prod ← find_one_product oid;
      match prod with
      | None => raise (HTTPException 404 "Product missing")
      | Some prod => mret (Product.file_url prod.2)
      end
  end.

(** ** Names for the statements below *)

(** The order document a checkout of [prod] writes. *)
Definition order_of (env : Env) (payload : CheckoutIn.t)
    (prod : ObjectId * Product.t) : Order.t :=
  let inv := invoice_number (invoice_seed (CheckoutIn.buyer_email payload)
                               (time_time env) (CheckoutIn.product_id payload)) in
  {| Order.product_id := str_of_ObjectId prod.1;
     Order.product_title := Product.title prod.2;
     Order.buyer_email := CheckoutIn.buyer_email payload;
     Order.amount := Product.price prod.2;
     Order.currency := "USD";
     Order.invoice_number := inv;
     Order.download_url := download_url (token inv (CheckoutIn.buyer_email payload));
     Order.created_at := datetime_now env |}.


(** The response a checkout returns for the [order] it wrote under [oid]. *)
Definition out_of (oid : ObjectId) (order : Order.t) : OrderOut.t :=
  {| OrderOut.id := str_of_ObjectId oid;
     OrderOut.invoice_number := Order.invoice_number order;
     OrderOut.download_url := Order.download_url order |}.

(** The console text of the notification for [order]. *)
Definition notice_of (order : Order.t) : string :=
  email_text (Order.buyer_email order) (subject_of order) (body_of order).

(** The store after [order] was inserted under [oid]. *)
Definition inserted (oid : ObjectId) (order : Order.t) (db : Database) : Database :=
  {| db_product := db_product db; db_order := db_order db ++ [(oid, order)] |}.

(** An order whose [product_id] is the text of a store key. *)
Definition keyed (d : ObjectId * Order.t) : Prop :=
  ∃ k, Order.product_id d.2 = str_of_ObjectId k
       ∧ ObjectId_of_str (Order.product_id d.2) = Some k.

(** Texts made of the digits [0-9a-f] only. *)
Definition is_lower_hex (c : ascii) : bool :=
  let n := N_of_ascii c in
  ((48 <=? n) && (n <=? 57) || (97 <=? n) && (n <=? 102))%N.

Fixpoint all_chars (P : ascii → bool) (s : string) : bool :=
  match s with
  | EmptyString => true
  | String c s' => P c && all_chars P s'
  end.

(** ** The operations that change the store

    [checkout] and [download] (whatever they return or raise), and any
    change to the [product] collection: the admin's [create_product],
    and edits or deletions made directly in the store. *)
Inductive step : Database → Database → Prop :=
  | step_checkout env payload db r db' :
      checkout env payload db = (r, db') → step db db'
  | step_download tok db r db' :
      download tok db = (r, db') → step db db'
  | step_products products db :
      step db {| db_product := products; db_order := db_order db |}.

(** Stores that the operations build from one without orders. *)
Inductive reachable : Database → Prop :=
  | reachable_init products :
      reachable {| db_product := products; db_order := [] |}
  | reachable_step db db' :
      reachable db → step db db' → reachable db'.

(** ** A small shop, for the concrete runs *)

Module Shop.

Import Byte.

Definition P1 : ObjectId := [x65; xa1; xf0; xc2; xd3; xe4; xb5; xa6; x97; x88; x77; x66].
Definition P2 : ObjectId := [x65; xa1; xf0; xc2; xd3; xe4; xb5; xa6; x97; x88; x77; x67].
Definition O1 : ObjectId := [x65; xa1; xf0; xc3; x00; x00; x00; x00; x00; x00; x00; x01].
Definition O2 : ObjectId := [x65; xa1; xf0; xc3; x00; x00; x00; x00; x00; x00; x00; x02].

Definition ebook : Product.t :=
  {| Product.title := "Ebook"; Product.description := None;
     Product.price := PyFloat "9.99"; Product.file_url := "https://cdn/x.pdf" |}.

Definition album : Product.t :=
  {| Product.title := "Album"; Product.description := Some "Twelve tracks";
     Product.price := PyFloat "4.5"; Product.file_url := "https://cdn/y.zip" |}.

Definition db0 : Database :=
  {| db_product := <[P1 := ebook]> (<[P2 := album]> ∅); db_order := [] |}.

(** A request served at clock reading [now], whose order gets key [oid]
    and whose console print returns. *)
Definition env_at (now : string) (oid : ObjectId) : Env :=
  {| time_time := PyFloat now; datetime_now := 0%Z; inserted_id := oid;
     print := λ _, None |}.

(** The same, with a console that raises on every print. *)
Definition env_broken (now : string) (oid : ObjectId) : Env :=
  {| time_time := PyFloat now; datetime_now := 0%Z; inserted_id := oid;
     print := λ _, Some (OtherException "BrokenPipeError") |}.

Definition buy1 : CheckoutIn.t :=
  {| CheckoutIn.product_id := "65a1f0c2d3e4b5a697887766"; CheckoutIn.buyer_email := "a@b.com" |}.
Definition buy2 : CheckoutIn.t :=
  {| CheckoutIn.product_id := "65a1f0c2d3e4b5a697887767"; CheckoutIn.buyer_email := "a@b.com" |}.

(** Two purchases by the same buyer, of the ebook and then of the album. *)
Definition env1 : Env := env_at "1700000001.1562042" O1.
Definition env2 : Env := env_at "1700000010.5583668" O2.
Definition db1 : Database := (checkout env1 buy1 db0).2.
Definition db2 : Database := (checkout env2 buy2 db1).2.

(** Two purchases of the ebook by the same buyer, under a second apart. *)
Definition env3 : Env := env_at "1700000000.4598112" O1.
Definition env4 : Env := env_at "1700000001.2379751" O2.
Definition db3 : Database := (checkout env3 buy1 db0).2.

(** The store after the ebook was bought and then deleted. *)
Definition db1_deleted : Database :=
  {| db_product := delete P1 (db_product db1); db_order := db_order db1 |}.

(** The store after both purchases, with the album deleted. *)
Definition db2_deleted : Database :=
  {| db_product := delete P2 (db_product db2); db_order := db_order db2 |}.

End Shop.

(** Texts of ASCII characters only, on which [upper] and [lower] are
    what [str.upper()] and [str.lower()] compute. *)
Definition is_ascii (c : ascii) : bool := (N_of_ascii c <? 128)%N.

(** ** The admin check

    [str.lower()] is modelled on the ASCII letters.  The texts it is
    applied to are compared with the lower-case ASCII admin address, and
    no character outside ASCII lower-cases to one of that address. *)
Definition lower_ascii (c : ascii) : ascii :=
  let n := N_of_ascii c in
  if ((65 <=? n) && (n <=? 90))%N then ascii_of_N (n + 32) else c.

Fixpoint lower (s : string) : string :=
  match s with
  | EmptyString => EmptyString
  | String c s' => String (lower_ascii c) (lower s')
  end.

Module HTTPBasicCredentials.
Record t : Type := mk
  { username : string;
    password : string }.
End HTTPBasicCredentials.

Definition ADMIN_EMAIL : string := "admin@admin.in".
Definition ADMIN_PASSWORD : string := "Admin".

(** [require_admin] *)
Definition require_admin (creds : HTTPBasicCredentials.t) : result bool :=
  if negb (String.eqb (lower (HTTPBasicCredentials.username creds)) (lower ADMIN_EMAIL))
     || negb (String.eqb (HTTPBasicCredentials.password creds) ADMIN_PASSWORD)
  then Raise (HTTPException 401 "Invalid admin credentials")
  else Return true.

(** [GET /admin/whoami]; the result is the value of ["email"]. *)
Definition whoami (creds : HTTPBasicCredentials.t) : result string :=
  if String.eqb (lower (HTTPBasicCredentials.username creds)) (lower ADMIN_EMAIL)
     && String.eqb (HTTPBasicCredentials.password creds) ADMIN_PASSWORD
  then Return ADMIN_EMAIL
  else Raise (HTTPException 401 "Invalid admin credentials").

(** ** The product listing *)

Module ProductOut.
Record t : Type := mk
  { id : string;
    title : string;
    description : option string;
    price : pyfloat;
    file_url : string }.
End ProductOut.

(** [GET /products], on the documents [items] that
    [get_documents("product")] hands over: the loop appends one
    [ProductOut] per document. *)
Definition list_products (items : list (ObjectId * Product.t)) : list ProductOut.t :=
  fold_left
    (λ out it,
       out ++ [ {| ProductOut.id := str_of_ObjectId it.1;
                   ProductOut.title := Product.title it.2;
                   ProductOut.description := Product.description it.2;
                   ProductOut.price := Product.price it.2;  (* float(it.get("price", 0)) *)
                   ProductOut.file_url := Product.file_url it.2 |} ])
    items [].

(** ** The request throttle

    Clock readings are IEEE 754 doubles here, since the middleware
    subtracts and compares them. *)
Module Throttle.

Import PrimFloat.

Definition RATE_LIMIT_WINDOW_SEC : float := 10%float.
Definition RATE_LIMIT_MAX_REQUESTS : nat := 50.

(** [_ip_hits] *)
Definition ip_hits : Type := gmap string (list float).

(** What the middleware answers: the 429 response of its own, or
    whatever [call_next] gives. *)
Inductive response : Type :=
  | JSONResponse (status_code : N) (detail : string)
  | call_next.

(** [now - t < RATE_LIMIT_WINDOW_SEC] *)
Definition in_window (now t : float) : bool :=
  ltb (sub now t) RATE_LIMIT_WINDOW_SEC.

(** [throttle_middleware], for a request of [client] (the host of
    [request.client], if there is one) at clock reading [now].  Nothing
    in the guarded block raises on these values, so its [except] branch
    is not taken. *)
Definition throttle_middleware (client : option string) (now : float)
    (_ip_hits : ip_hits) : response * ip_hits :=
  let ip := match client with Some host => host | None => "unknown" end in
  let hits := match _ip_hits !! ip with Some hits => hits | None => [] end in
  let hits := List.filter (in_window now) hits in
  let hits := hits ++ [now] in
  let _ip_hits := <[ip := hits]> _ip_hits in
  if (RATE_LIMIT_MAX_REQUESTS <? length hits)%nat
  then (JSONResponse 429 "Too many requests", _ip_hits)
  else (call_next, _ip_hits).

(** The requests of one client at the clock readings [nows], in turn. *)
Fixpoint serve (client : option string) (nows : list float) (_ip_hits : ip_hits)
    : list response * ip_hits :=
  match nows with
  | [] => ([], _ip_hits)
  | now :: nows' =>
      let (r, m) := throttle_middleware client now _ip_hits in
      let (rs, m') := serve client nows' m in
      (r :: rs, m')
  end.

(** The bucket of a client, and the hits on record for it. *)
Definition bucket (client : option string) : string :=
  match client with Some host => host | None => "unknown" end.

Definition recorded (client : option string) (_ip_hits : ip_hits) : list float :=
  match _ip_hits !! bucket client with Some hits => hits | None => [] end.

(** What the limit makes of the request that finds [n] hits on record
    within the window. *)
Definition verdict (n : nat) : response :=
  if (RATE_LIMIT_MAX_REQUESTS <? S n)%nat
  then JSONResponse 429 "Too many requests"
  else call_next.

(** Clock readings for the concrete runs: three within ten seconds,
    and one a minute later. *)
Definition t0 : float := 1700000000.5%float.
Definition t1 : float := 1700000003.25%float.
Definition t2 : float := 1700000009.75%float.
Definition t3 : float := 1700000063.5%float.

End Throttle.

(** Texts made of the digits [0-9A-F] only. *)
Definition is_upper_hex (c : ascii) : bool :=
  let n := N_of_ascii c in
  ((48 <=? n) && (n <=? 57) || (65 <=? n) && (n <=? 70))%N.

(** What every order written by [checkout] looks like. *)
Definition issued (d : ObjectId * Order.t) : Prop :=
  Order.currency d.2 = "USD"
  ∧ String.length (Order.invoice_number d.2) = 10%nat
  ∧ all_chars is_upper_hex (Order.invoice_number d.2) = true
  ∧ Order.download_url d.2
    = download_url (token (Order.invoice_number d.2) (Order.buyer_email d.2)).

(** The derivations are kept folded when goals are simplified. *)
Arguments SHA256.hexdigest : simpl never.
Arguments invoice_seed : simpl never.
Arguments invoice_number : simpl never.
Arguments token : simpl never.
Arguments download_url : simpl never.
Arguments ObjectId_of_str : simpl never.
Arguments str_of_ObjectId : simpl never.
Arguments email_text : simpl never.

(** * Properties *)

(** ** SHA-256 test vectors (FIPS 180-4, one and two blocks) *)

Example sha256_constants :
  nth 0 SHA256.K 0%N = 0x428a2f98%N ∧ nth 63 SHA256.K 0%N = 0xc67178f2%N
  ∧ SHA256.sa SHA256.H0 = 0x6a09e667%N ∧ SHA256.sh SHA256.H0 = 0x5be0cd19%N.
Proof. split_and!; reflexivity. Qed.

Example sha256_empty :
  SHA256.hexdigest "" = "e3b0c44298fc1c149afbf4c8996fb92427ae41e4649b934ca495991b7852b855".
Proof. vm_compute. reflexivity. Qed.

Example sha256_abc :
  SHA256.hexdigest "abc" = "ba7816bf8f01cfea414140de5dae2223b00361a396177a9cb410ff61f20015ad".
Proof. vm_compute. reflexivity. Qed.

Example sha256_two_blocks :
  SHA256.hexdigest "abcdbcdecdefdefgefghfghighijhijkijkljklmklmnlmnomnopnopq"
  = "248d6a61d20638b8e5c026930c3e6039a33ce45964ff2167f6ecedd419db06c1".
Proof. vm_compute. reflexivity. Qed.

(** ** Texts *)

Lemma append_cons (c : ascii) (s t : string) : String c s +:+ t = String c (s +:+ t).
Proof. reflexivity. Qed.

Lemma length_append (s1 s2 : string) :
  String.length (s1 +:+ s2) = (String.length s1 + String.length s2)%nat.
Proof.
  induction s1 as [|c s1 IH]; [done|].
  rewrite append_cons. cbn. by rewrite IH.
Qed.

Lemma append_inv_tail (s1 s2 t : string) : s1 +:+ t = s2 +:+ t → s1 = s2.
Proof.
  revert s2. induction s1 as [|c s1 IH]; intros [|d s2] H.
  - done.
  - apply (f_equal String.length) in H. rewrite !length_append in H. cbn in H. lia.
  - apply (f_equal String.length) in H. rewrite !length_append in H. cbn in H. lia.
  - rewrite !append_cons in H. injection H as -> H. f_equal. by apply IH.
Qed.

Lemma length_upper (s : string) : String.length (upper s) = String.length s.
Proof. induction s as [|c s IH]; cbn; [done|]. by rewrite IH. Qed.

Lemma length_str_take (n : nat) (s : string) :
  (n ≤ String.length s)%nat → String.length (str_take n s) = n.
Proof.
  unfold str_take. revert s. induction n as [|n IH]; intros [|c s] H; cbn in *; try done; try lia.
  rewrite IH; [done|lia].
Qed.

Lemma all_chars_str_take (P : ascii → bool) (n : nat) (s : string) :
  all_chars P s = true → all_chars P (str_take n s) = true.
Proof.
  unfold str_take. revert s. induction n as [|n IH]; intros [|c s] H; cbn in *; try done.
  apply andb_true_iff in H as [Hc Hs]. rewrite Hc. cbn. by apply IH.
Qed.

Lemma upper_ascii_inj (c d : ascii) :
  is_lower_hex c = true → is_lower_hex d = true → upper_ascii c = upper_ascii d → c = d.
Proof.
  destruct c as [[] [] [] [] [] [] [] []]; try discriminate;
    destruct d as [[] [] [] [] [] [] [] []]; try discriminate;
    intros _ _ H; try reflexivity; vm_compute in H; discriminate.
Qed.

Lemma upper_inj (s t : string) :
  all_chars is_lower_hex s = true → all_chars is_lower_hex t = true →
  upper s = upper t → s = t.
Proof.
  revert t. induction s as [|c s IH]; intros [|d t] Hs Ht H; cbn in *; try done.
  apply andb_true_iff in Hs as [Hc Hs]. apply andb_true_iff in Ht as [Hd Ht].
  injection H as Hcd H. f_equal; [by apply upper_ascii_inj | by apply IH].
Qed.

(** ** Hexadecimal digests *)

Lemma hex_digit_lower (d : N) : (d < 16)%N → is_lower_hex (Hex.hex_digit d) = true.
Proof.
  intros H. rewrite <- (N2Nat.id d).
  assert (Hn : (N.to_nat d < 16)%nat) by lia.
  revert Hn. generalize (N.to_nat d) as n. intros n Hn.
  do 16 (destruct n as [|n]; [reflexivity|]). lia.
Qed.

Lemma land_byte_lt (x : N) : (N.land x 0xFF < 256)%N.
Proof. change 0xFF%N with (N.ones 8). rewrite N.land_ones. by apply N.mod_lt. Qed.

Lemma hex_byte_lower (b : N) (k : string) :
  (b < 256)%N → all_chars is_lower_hex k = true →
  all_chars is_lower_hex (Hex.hex_byte b k) = true.
Proof.
  intros Hb Hk. unfold Hex.hex_byte. cbn [all_chars].
  rewrite !hex_digit_lower, Hk; [done| |].
  - change 0xF%N with (N.ones 4). rewrite N.land_ones. by apply N.mod_lt.
  - rewrite N.shiftr_div_pow2. apply N.Div0.div_lt_upper_bound. exact Hb.
Qed.

Lemma hex_word_lower (w : N) (k : string) :
  all_chars is_lower_hex k = true → all_chars is_lower_hex (SHA256.hex_word w k) = true.
Proof.
  intros Hk. unfold SHA256.hex_word.
  repeat (apply hex_byte_lower; [apply land_byte_lt|]). exact Hk.
Qed.

Lemma hexdigest_lower (s : string) : all_chars is_lower_hex (SHA256.hexdigest s) = true.
Proof.
  unfold SHA256.hexdigest, SHA256.hex_state.
  repeat apply hex_word_lower. reflexivity.
Qed.

Lemma length_hexdigest (s : string) : String.length (SHA256.hexdigest s) = 64%nat.
Proof. reflexivity. Qed.

Lemma length_invoice_number (seed : string) : String.length (invoice_number seed) = 10%nat.
Proof.
  unfold invoice_number. rewrite length_upper, length_str_take; [done|].
  rewrite length_hexdigest. lia.
Qed.

Lemma invoice_number_inj_digest (seed1 seed2 : string) :
  invoice_number seed1 = invoice_number seed2 ↔
  str_take 10 (SHA256.hexdigest seed1) = str_take 10 (SHA256.hexdigest seed2).
Proof.
  unfold invoice_number. split; [|by intros ->].
  apply upper_inj; apply all_chars_str_take, hexdigest_lower.
Qed.

(** ** Store keys and their text *)

Lemma fromhex_hex_byte (b : Byte.byte) (s : string) :
  fromhex (Hex.hex_byte (Byte.to_N b) s)
  = match fromhex s with Some bs => Some (b :: bs) | None => None end.
Proof. destruct b; reflexivity. Qed.

Lemma fromhex_hexlify (k : list Byte.byte) : fromhex (hexlify k) = Some k.
Proof.
  induction k as [|b k IH]; [reflexivity|].
  cbn [hexlify]. by rewrite fromhex_hex_byte, IH.
Qed.

Lemma length_hexlify (k : list Byte.byte) :
  String.length (hexlify k) = (2 * length k)%nat.
Proof. induction k as [|b k IH]; cbn in *; [done|]. rewrite IH. lia. Qed.

Lemma length_fromhex (s : string) (k : list Byte.byte) :
  fromhex s = Some k → String.length s = (2 * length k)%nat.
Proof.
  revert s. induction k as [|b k IH]; intros [|c [|d s]] H; cbn in H; try done.
  - destruct (Hex.hexval c), (Hex.hexval d); try done.
    destruct (Byte.of_N _), (fromhex s); done.
  - destruct (Hex.hexval c), (Hex.hexval d); try done.
    destruct (Byte.of_N _); [|done].
    destruct (fromhex s) as [bs|] eqn:Hs; [|done].
    injection H as _ ->. cbn. rewrite (IH s Hs). lia.
Qed.

Lemma ObjectId_of_str_length (s : string) (k : ObjectId) :
  ObjectId_of_str s = Some k → length k = 12%nat.
Proof.
  unfold ObjectId_of_str. case_decide as Hl; [|done].
  intros H%length_fromhex. lia.
Qed.

Lemma ObjectId_of_str_str (k : ObjectId) :
  length k = 12%nat → ObjectId_of_str (str_of_ObjectId k) = Some k.
Proof.
  intros Hl. unfold ObjectId_of_str, str_of_ObjectId.
  rewrite length_hexlify, Hl. cbn. apply fromhex_hexlify.
Qed.

Lemma ObjectId_of_str_parsed (s : string) (k : ObjectId) :
  ObjectId_of_str s = Some k → ObjectId_of_str (str_of_ObjectId k) = Some k.
Proof. intros H. by apply ObjectId_of_str_str, (ObjectId_of_str_length s). Qed.

(** ** The handlers, case by case *)

Lemma checkout_eq (env : Env) (payload : CheckoutIn.t) (db : Database) :
  checkout env payload db =
  match ObjectId_of_str (CheckoutIn.product_id payload) with
  | Some k =>
      match db_product db !! k with
      | Some p =>
          let order := order_of env payload (k, p) in
          match print env (notice_of order) with
          | None => (Return (out_of (inserted_id env) order),
                     inserted (inserted_id env) order db)
          | Some e => (Raise e, inserted (inserted_id env) order db)
          end
      | None => (Raise (HTTPException 404 "Product not found"), db)
      end
  | None => (Raise (HTTPException 404 "Product not found"), db)
  end.
Proof.
  unfold checkout, mbind, M_bind, try_except, ObjectId_, find_one_product.
  destruct (ObjectId_of_str _) as [k|]; cbn; [|done].
  destruct (db_product db !! k) as [p|]; cbn; [|done].
  unfold send_email, notice_of, order_of. cbn.
  destruct (print env _); done.
Qed.

Lemma download_eq (tok : string) (db : Database) :
  download tok db =
  match find (λ d, String.eqb (Order.download_url d.2) (download_url tok)) (db_order db) with
  | None => (Raise (HTTPException 404 "Invalid token"), db)
  | Some d =>
      match ObjectId_of_str (Order.product_id d.2) with
      | None => (Raise (InvalidId (Order.product_id d.2)), db)
      | Some k =>
          match db_product db !! k with
          | None => (Raise (HTTPException 404 "Product missing"), db)
          | Some p => (Return (Product.file_url p), db)
          end
      end
  end.
Proof.
  unfold download, mbind, M_bind, find_one_order, ObjectId_, find_one_product, download_url.
  destruct (find _ _) as [d|]; cbn; [|done].
  destruct (ObjectId_of_str _) as [k|]; cbn; [|done].
  destruct (db_product db !! k) as [p|]; done.
Qed.

Lemma find_app {A : Type} (f : A → bool) (l1 l2 : list A) :
  find f (l1 ++ l2) = match find f l1 with Some x => Some x | None => find f l2 end.
Proof. induction l1 as [|x l1 IH]; cbn; [done|]. destruct (f x); done. Qed.

Lemma download_url_inj (t1 t2 : string) : download_url t1 = download_url t2 → t1 = t2.
Proof. unfold download_url. apply (inj (String.app "/download/")). Qed.

Lemma step_checkout_snd (env : Env) (payload : CheckoutIn.t) (db : Database) :
  step db (checkout env payload db).2.
Proof.
  apply (step_checkout env payload db (checkout env payload db).1).
  by destruct (checkout env payload db).
Qed.

Lemma reachable_db1 : reachable Shop.db1.
Proof.
  eapply reachable_step; [apply (reachable_init (db_product Shop.db0))|].
  apply (step_checkout_snd Shop.env1 Shop.buy1).
Qed.

(** ** Checkout followed by download *)

(** The scenario of the specification: the ebook at 9.99 is bought by
    a@b.com; the order records 9.99 USD, a 10-character invoice number
    and a 64-character token, and the token resolves to the ebook's
    file. *)
Example ebook_scenario :
  let tok := "0beb15f8b5037d651ea1d0b7d78e476aa7676cf232ec89b99c3665377fe6625b" in
  checkout Shop.env1 Shop.buy1 Shop.db0
  = (Return {| OrderOut.id := "65a1f0c30000000000000001";
               OrderOut.invoice_number := "E630E9F895";
               OrderOut.download_url := "/download/" +:+ tok |}, Shop.db1)
  ∧ db_order Shop.db1
    = [(Shop.O1,
        {| Order.product_id := "65a1f0c2d3e4b5a697887766";
           Order.product_title := "Ebook";
           Order.buyer_email := "a@b.com";
           Order.amount := PyFloat "9.99";
           Order.currency := "USD";
           Order.invoice_number := "E630E9F895";
           Order.download_url := "/download/" +:+ tok;
           Order.created_at := 0%Z |})]
  ∧ String.length tok = 64%nat
  ∧ download tok Shop.db1 = (Return "https://cdn/x.pdf", Shop.db1).
Proof. intros tok. split_and!; vm_compute; reflexivity. Qed.

(** C1, as stated, fails: the buyer who bought the ebook at
    1700000001.1562042 and buys the album at 1700000010.5583668 gets the
    invoice number E630E9F895 both times, hence the same token; both
    checkouts succeed, and the URL returned for the album resolves to
    the ebook's file, because the lookup returns the first order that
    carries the URL. *)
Lemma checkout_download_other_product :
  let tok := "0beb15f8b5037d651ea1d0b7d78e476aa7676cf232ec89b99c3665377fe6625b" in
  reachable Shop.db1
  ∧ ObjectId_of_str (CheckoutIn.product_id Shop.buy2) = Some Shop.P2
  ∧ db_product Shop.db1 !! Shop.P2 = Some Shop.album
  ∧ CheckoutIn.buyer_email Shop.buy2 ≠ ""
  ∧ checkout Shop.env2 Shop.buy2 Shop.db1
    = (Return {| OrderOut.id := "65a1f0c30000000000000002";
                 OrderOut.invoice_number := "E630E9F895";
                 OrderOut.download_url := "/download/" +:+ tok |}, Shop.db2)
  ∧ download tok Shop.db2 = (Return "https://cdn/x.pdf", Shop.db2)
  ∧ download tok Shop.db2 ≠ (Return (Product.file_url Shop.album), Shop.db2).
Proof.
  intros tok. split_and!.
  - apply reachable_db1.
  - vm_compute; reflexivity.
  - vm_compute; reflexivity.
  - discriminate.
  - vm_compute; reflexivity.
  - vm_compute; reflexivity.
  - assert (H : download tok Shop.db2 = (Return "https://cdn/x.pdf", Shop.db2)) by (vm_compute; reflexivity).
    rewrite H. intros [=].
Qed.

(** C1, amended: when the notification print returns and every order
    already stored under the derived download URL is for the same
    product, checkout of a product of the store succeeds, and the token
    of the returned URL resolves to that product's [file_url]. *)
Theorem checkout_then_download (env : Env) (payload : CheckoutIn.t) (db : Database)
    (k : ObjectId) (p : Product.t) :
  let email := CheckoutIn.buyer_email payload in
  let tok := token (invoice_number (invoice_seed email (time_time env)
                                      (CheckoutIn.product_id payload))) email in
  ObjectId_of_str (CheckoutIn.product_id payload) = Some k →
  db_product db !! k = Some p →
  print env (notice_of (order_of env payload (k, p))) = None →
  Forall (λ d, Order.download_url d.2 = download_url tok →
               Order.product_id d.2 = str_of_ObjectId k) (db_order db) →
  ∃ out db',
    checkout env payload db = (Return out, db')
    ∧ OrderOut.download_url out = download_url tok
    ∧ download tok db' = (Return (Product.file_url p), db').
Proof.
  intros email tok Hk Hp Hprint Hfree.
  rewrite checkout_eq, Hk, Hp. cbn zeta. rewrite Hprint.
  eexists _, _. split; [reflexivity|]. split; [reflexivity|].
  rewrite download_eq. cbn [inserted db_order db_product].
  rewrite find_app.
  destruct (find _ (db_order db)) as [d|] eqn:Hfind.
  - apply find_some in Hfind as [Hd Hurl].
    apply String.eqb_eq in Hurl.
    rewrite Forall_forall in Hfree.
    rewrite (Hfree d); [|by apply list_elem_of_In|exact Hurl].
    by rewrite (ObjectId_of_str_parsed _ _ Hk), Hp.
  - cbn. rewrite String.eqb_refl. cbn.
    by rewrite (ObjectId_of_str_parsed _ _ Hk), Hp.
Qed.

Lemma checkout_then_download_witness :
  ∃ out db',
    checkout Shop.env1 Shop.buy1 Shop.db0 = (Return out, db')
    ∧ OrderOut.download_url out
      = download_url "0beb15f8b5037d651ea1d0b7d78e476aa7676cf232ec89b99c3665377fe6625b"
    ∧ download "0beb15f8b5037d651ea1d0b7d78e476aa7676cf232ec89b99c3665377fe6625b" db'
      = (Return "https://cdn/x.pdf", db').
Proof.
  apply (checkout_then_download Shop.env1 Shop.buy1 Shop.db0 Shop.P1 Shop.ebook).
  - vm_compute. reflexivity.
  - vm_compute. reflexivity.
  - reflexivity.
  - apply Forall_nil_2.
Defined.

(** ** Checkout of an unknown product *)

(** C2: a product id that is not the text of a store key, or that is the
    key of no product, makes checkout raise the same 404 "Product not
    found", and the store, its orders included, is left as it was. *)
Theorem checkout_unknown_product (env : Env) (payload : CheckoutIn.t) (db : Database) :
  ObjectId_of_str (CheckoutIn.product_id payload) = None
  ∨ (∃ k, ObjectId_of_str (CheckoutIn.product_id payload) = Some k
          ∧ db_product db !! k = None) →
  checkout env payload db = (Raise (HTTPException 404 "Product not found"), db).
Proof.
  intros [Hbad | (k & Hk & Hnone)]; rewrite checkout_eq.
  - by rewrite Hbad.
  - by rewrite Hk, Hnone.
Qed.

Lemma checkout_unknown_product_witness :
  checkout Shop.env1 (CheckoutIn.mk "not-a-key" "a@b.com") Shop.db1
  = (Raise (HTTPException 404 "Product not found"), Shop.db1)
  ∧ checkout Shop.env1 (CheckoutIn.mk "65a1f0c2d3e4b5a697887768" "a@b.com") Shop.db1
    = (Raise (HTTPException 404 "Product not found"), Shop.db1).
Proof.
  split.
  - apply checkout_unknown_product. left. vm_compute. reflexivity.
  - apply checkout_unknown_product. right.
    exists [Byte.x65; Byte.xa1; Byte.xf0; Byte.xc2; Byte.xd3; Byte.xe4;
            Byte.xb5; Byte.xa6; Byte.x97; Byte.x88; Byte.x77; Byte.x68].
    split; vm_compute; reflexivity.
Defined.

(** ** Derivation of the invoice number and the token *)

(** C3, as stated, fails: the hashed seed is not the plain concatenation
    of e-mail, clock reading and product id.  For the purchase of the
    ebook at 1700000001.1562042 the invoice number is E630E9F895, while
    the digest of the plain concatenation starts with F675DED0B2. *)
Lemma invoice_seed_not_plain_concatenation :
  ∃ out,
    checkout Shop.env1 Shop.buy1 Shop.db0 = (Return out, Shop.db1)
    ∧ OrderOut.invoice_number out = "E630E9F895"
    ∧ upper (str_take 10 (SHA256.hexdigest
               (CheckoutIn.buyer_email Shop.buy1
                +:+ float_str (time_time Shop.env1)
                +:+ CheckoutIn.product_id Shop.buy1))) = "F675DED0B2"
    ∧ OrderOut.invoice_number out
      ≠ upper (str_take 10 (SHA256.hexdigest
                 (CheckoutIn.buyer_email Shop.buy1
                  +:+ float_str (time_time Shop.env1)
                  +:+ CheckoutIn.product_id Shop.buy1))).
Proof.
  eexists. split; [vm_compute; reflexivity|]. split; [reflexivity|].
  split; [vm_compute; reflexivity|].
  cbn [OrderOut.invoice_number].
  assert (H : upper (str_take 10 (SHA256.hexdigest
               (CheckoutIn.buyer_email Shop.buy1
                +:+ float_str (time_time Shop.env1)
                +:+ CheckoutIn.product_id Shop.buy1))) = "F675DED0B2") by (vm_compute; reflexivity).
  rewrite H. intros [=].
Qed.

(** C3, amended: on success the invoice number is the first 10
    hexadecimal characters, upper-cased, of the SHA-256 of
    [buyer_email ++ "-" ++ t ++ "-" ++ product_id], where [t] is the
    text of the clock reading; the token is the full 64-character
    SHA-256 of [invoice_number ++ "-" ++ buyer_email]; and the download
    URL is ["/download/" ++ token]. *)
Theorem checkout_derivation (env : Env) (payload : CheckoutIn.t) (db db' : Database)
    (out : OrderOut.t) :
  checkout env payload db = (Return out, db') →
  let email := CheckoutIn.buyer_email payload in
  let inv := upper (str_take 10 (SHA256.hexdigest
               (email +:+ "-" +:+ float_str (time_time env) +:+ "-"
                +:+ CheckoutIn.product_id payload))) in
  let tok := SHA256.hexdigest (inv +:+ "-" +:+ email) in
  OrderOut.invoice_number out = inv
  ∧ String.length inv = 10%nat
  ∧ String.length tok = 64%nat
  ∧ OrderOut.download_url out = "/download/" +:+ tok.
Proof.
  intros H email inv tok. rewrite checkout_eq in H.
  destruct (ObjectId_of_str _) as [k|]; [|done].
  destruct (db_product db !! k) as [p|]; [|done].
  cbn zeta in H. destruct (print env _); [done|].
  injection H as <- _.
  split; [reflexivity|]. split; [apply length_invoice_number|].
  split; [apply length_hexdigest|reflexivity].
Qed.

Lemma checkout_derivation_witness :
  OrderOut.invoice_number (out_of Shop.O1 (order_of Shop.env1 Shop.buy1 (Shop.P1, Shop.ebook)))
  = upper (str_take 10 (SHA256.hexdigest
             ("a@b.com" +:+ "-" +:+ "1700000001.1562042" +:+ "-"
              +:+ "65a1f0c2d3e4b5a697887766"))).
Proof.
  apply (checkout_derivation Shop.env1 Shop.buy1 Shop.db0 Shop.db1).
  vm_compute. reflexivity.
Defined.

(** ** Orders are written once *)

Lemma download_store (tok : string) (db : Database) : (download tok db).2 = db.
Proof.
  rewrite download_eq.
  destruct (find _ _) as [d|]; [|done].
  destruct (ObjectId_of_str _) as [k|]; [|done].
  destruct (db_product db !! k); done.
Qed.

Lemma checkout_orders (env : Env) (payload : CheckoutIn.t) (db : Database) :
  db_order db `prefix_of` db_order (checkout env payload db).2.
Proof.
  rewrite checkout_eq.
  destruct (ObjectId_of_str _) as [k|]; [|done].
  destruct (db_product db !! k) as [p|]; [|done].
  cbn zeta. destruct (print env _); cbn; by apply prefix_app_r.
Qed.

Lemma step_orders (db db' : Database) :
  step db db' → db_order db `prefix_of` db_order db'.
Proof.
  intros [env payload db0 r db0' H | tok db0 r db0' H | products db0].
  - pose proof (checkout_orders env payload db0) as Hp. by rewrite H in Hp.
  - pose proof (download_store tok db0) as Hs. rewrite H in Hs. cbn in Hs. by subst.
  - done.
Qed.

Lemma steps_orders (db db' : Database) :
  rtc step db db' → db_order db `prefix_of` db_order db'.
Proof.
  induction 1 as [|db1 db2 db3 H12 _ IH]; [done|].
  etrans; [by apply step_orders|exact IH].
Qed.

(** C4: the order a successful checkout writes holds the title and the
    price the product has at that moment and the currency "USD"; it is
    appended to the orders, and whatever happens afterwards (checkouts,
    downloads, any change to the products) the orders written so far
    stay in the store, at their place and unchanged. *)
Theorem order_snapshot (env : Env) (payload : CheckoutIn.t) (db db' : Database)
    (out : OrderOut.t) :
  checkout env payload db = (Return out, db') →
  ∃ k p o,
    ObjectId_of_str (CheckoutIn.product_id payload) = Some k
    ∧ db_product db !! k = Some p
    ∧ db_order db' = db_order db ++ [(inserted_id env, o)]
    ∧ Order.product_title o = Product.title p
    ∧ Order.amount o = Product.price p
    ∧ Order.currency o = "USD"
    ∧ ∀ db'', rtc step db' db'' →
        ∃ later, db_order db'' = db_order db ++ [(inserted_id env, o)] ++ later.
Proof.
  intros H. rewrite checkout_eq in H.
  destruct (ObjectId_of_str _) as [k|] eqn:Hk; [|done].
  destruct (db_product db !! k) as [p|] eqn:Hp; [|done].
  cbn zeta in H. destruct (print env _); [done|].
  injection H as _ <-.
  exists k, p, (order_of env payload (k, p)).
  split_and!; try reflexivity; try assumption.
  intros db'' [later Hlater]%steps_orders.
  exists later. rewrite Hlater. cbn. by rewrite <- (assoc_L (++)).
Qed.

Lemma order_snapshot_witness :
  ∃ k p o,
    ObjectId_of_str (CheckoutIn.product_id Shop.buy1) = Some k
    ∧ db_product Shop.db0 !! k = Some p
    ∧ db_order Shop.db1 = db_order Shop.db0 ++ [(inserted_id Shop.env1, o)]
    ∧ Order.product_title o = Product.title p
    ∧ Order.amount o = Product.price p
    ∧ Order.currency o = "USD"
    ∧ ∀ db'', rtc step Shop.db1 db'' →
        ∃ later, db_order db'' = db_order Shop.db0 ++ [(inserted_id Shop.env1, o)] ++ later.
Proof.
  apply (order_snapshot Shop.env1 Shop.buy1 Shop.db0 Shop.db1
           (out_of Shop.O1 (order_of Shop.env1 Shop.buy1 (Shop.P1, Shop.ebook)))).
  vm_compute. reflexivity.
Defined.

(** ** Download *)

(** C5: when no stored order has ["/download/" ++ token] as its
    [download_url] (equality of the texts, character by character),
    download raises 404 "Invalid token". *)
Theorem download_unknown_token (tok : string) (db : Database) :
  Forall (λ d, Order.download_url d.2 ≠ "/download/" +:+ tok) (db_order db) →
  download tok db = (Raise (HTTPException 404 "Invalid token"), db).
Proof.
  intros Hnone. rewrite download_eq.
  destruct (find _ _) as [d|] eqn:Hfind; [|done].
  apply find_some in Hfind as [Hd Hurl]. apply String.eqb_eq in Hurl.
  rewrite Forall_forall in Hnone.
  destruct (Hnone d); [by apply list_elem_of_In|exact Hurl].
Qed.

Lemma download_unknown_token_witness :
  download "0BEB15F8B5037D651EA1D0B7D78E476AA7676CF232EC89B99C3665377FE6625B" Shop.db1
  = (Raise (HTTPException 404 "Invalid token"), Shop.db1).
Proof.
  apply download_unknown_token.
  vm_compute. repeat constructor. discriminate.
Defined.

(** C6: download leaves the store as it was, whatever it returns or
    raises, so the token stays valid, and a second call with the same
    token gives what the first one gave. *)
Theorem download_read_only (tok : string) (db : Database) :
  (download tok db).2 = db
  ∧ download tok (download tok db).2 = download tok db.
Proof. split; [apply download_store|by rewrite download_store]. Qed.

(** ** A notification that fails *)

(** C7, as stated, fails: with a console that raises on the print,
    checkout of the ebook inserts the order and then raises the
    console's error; it returns no response. *)
Lemma notification_failure_reaches_caller :
  let env := Shop.env_broken "1700000001.1562042" Shop.O1 in
  checkout env Shop.buy1 Shop.db0
  = (Raise (OtherException "BrokenPipeError"), Shop.db1)
  ∧ db_order Shop.db1
    = [(Shop.O1, order_of env Shop.buy1 (Shop.P1, Shop.ebook))]
  ∧ ∀ out db', checkout env Shop.buy1 Shop.db0 ≠ (Return out, db').
Proof.
  intros env.
  assert (H : checkout env Shop.buy1 Shop.db0
              = (Raise (OtherException "BrokenPipeError"), Shop.db1))
    by (vm_compute; reflexivity).
  split_and!; [exact H|vm_compute; reflexivity|].
  intros out db'. rewrite H. intros [=].
Qed.

(** C7, amended: when the print of the notification raises, the order
    inserted before it stays in the store (nothing is rolled back), and
    checkout raises the printer's error instead of returning
    [{id, invoice_number, download_url}]. *)
Theorem notification_failure (env : Env) (payload : CheckoutIn.t) (db : Database)
    (k : ObjectId) (p : Product.t) (e : exception) :
  ObjectId_of_str (CheckoutIn.product_id payload) = Some k →
  db_product db !! k = Some p →
  print env (notice_of (order_of env payload (k, p))) = Some e →
  ∃ db',
    checkout env payload db = (Raise e, db')
    ∧ db_product db' = db_product db
    ∧ db_order db' = db_order db ++ [(inserted_id env, order_of env payload (k, p))].
Proof.
  intros Hk Hp Hprint. rewrite checkout_eq, Hk, Hp. cbn zeta. rewrite Hprint.
  by eexists.
Qed.

Lemma notification_failure_witness :
  ∃ db',
    checkout (Shop.env_broken "1700000001.1562042" Shop.O1) Shop.buy1 Shop.db0
    = (Raise (OtherException "BrokenPipeError"), db')
    ∧ db_product db' = db_product Shop.db0
    ∧ db_order db'
      = db_order Shop.db0
        ++ [(Shop.O1, order_of (Shop.env_broken "1700000001.1562042" Shop.O1)
                        Shop.buy1 (Shop.P1, Shop.ebook))].
Proof.
  apply (notification_failure (Shop.env_broken "1700000001.1562042" Shop.O1)
           Shop.buy1 Shop.db0 Shop.P1 Shop.ebook).
  - vm_compute. reflexivity.
  - vm_compute. reflexivity.
  - reflexivity.
Defined.

(** ** Two checkouts of the same product by the same buyer *)

(** C8, as stated, fails: the buyer who buys the ebook at
    1700000000.4598112 and again at 1700000001.2379751 gets the invoice
    number B93AA8E1EB and the same download URL both times. *)
Lemma same_invoice_at_different_times :
  time_time Shop.env3 ≠ time_time Shop.env4
  ∧ (checkout Shop.env3 Shop.buy1 Shop.db0).1
    = Return {| OrderOut.id := "65a1f0c30000000000000001";
                OrderOut.invoice_number := "B93AA8E1EB";
                OrderOut.download_url :=
                  "/download/09a9bd43ced09724cc2d0684d821b70b31a0c82cb7fec6561b52cb8f0a1e02a7" |}
  ∧ (checkout Shop.env4 Shop.buy1 Shop.db3).1
    = Return {| OrderOut.id := "65a1f0c30000000000000002";
                OrderOut.invoice_number := "B93AA8E1EB";
                OrderOut.download_url :=
                  "/download/09a9bd43ced09724cc2d0684d821b70b31a0c82cb7fec6561b52cb8f0a1e02a7" |}.
Proof.
  split_and!; [discriminate|vm_compute; reflexivity..].
Qed.

(** C8, amended: two successful checkouts with the same product id and
    buyer e-mail at different clock readings hash different seeds; their
    invoice numbers are equal exactly when the SHA-256 digests of the
    two seeds agree on their first 10 hexadecimal characters, and then
    the tokens (and download URLs) are equal as well. *)
Theorem checkout_twice (env1 env2 : Env) (payload : CheckoutIn.t)
    (db1 db1' db2 db2' : Database) (out1 out2 : OrderOut.t) :
  time_time env1 ≠ time_time env2 →
  checkout env1 payload db1 = (Return out1, db1') →
  checkout env2 payload db2 = (Return out2, db2') →
  let seed1 := invoice_seed (CheckoutIn.buyer_email payload) (time_time env1)
                 (CheckoutIn.product_id payload) in
  let seed2 := invoice_seed (CheckoutIn.buyer_email payload) (time_time env2)
                 (CheckoutIn.product_id payload) in
  seed1 ≠ seed2
  ∧ (OrderOut.invoice_number out1 = OrderOut.invoice_number out2
     ↔ str_take 10 (SHA256.hexdigest seed1) = str_take 10 (SHA256.hexdigest seed2))
  ∧ (OrderOut.invoice_number out1 = OrderOut.invoice_number out2 →
     OrderOut.download_url out1 = OrderOut.download_url out2).
Proof.
  intros Ht H1 H2 seed1 seed2.
  rewrite checkout_eq in H1, H2.
  destruct (ObjectId_of_str _) as [k|]; [|done].
  destruct (db_product db1 !! k) as [p1|]; [|done].
  destruct (db_product db2 !! k) as [p2|]; [|done].
  cbn zeta in H1, H2.
  destruct (print env1 _); [done|]. destruct (print env2 _); [done|].
  injection H1 as <- _. injection H2 as <- _.
  cbn [out_of order_of OrderOut.invoice_number OrderOut.download_url
       Order.invoice_number Order.download_url].
  fold seed1 seed2. split_and!.
  - unfold seed1, seed2, invoice_seed. intros Heq.
    apply (inj (String.app _)), (inj (String.app "-")), append_inv_tail in Heq.
    apply Ht. destruct (time_time env1), (time_time env2). cbn in Heq. by subst.
  - apply invoice_number_inj_digest.
  - by intros ->.
Qed.

Lemma checkout_twice_witness :
  invoice_seed "a@b.com" (PyFloat "1700000001.1562042") "65a1f0c2d3e4b5a697887766"
  ≠ invoice_seed "a@b.com" (PyFloat "1700000010.5583668") "65a1f0c2d3e4b5a697887766".
Proof.
  apply (checkout_twice Shop.env1 Shop.env2 Shop.buy1 Shop.db0 Shop.db1 Shop.db1
           (checkout Shop.env2 Shop.buy1 Shop.db1).2
           (out_of Shop.O1 (order_of Shop.env1 Shop.buy1 (Shop.P1, Shop.ebook)))
           (out_of Shop.O2 (order_of Shop.env2 Shop.buy1 (Shop.P1, Shop.ebook)))).
  - discriminate.
  - vm_compute. reflexivity.
  - vm_compute. reflexivity.
Defined.

(** ** Download after the product is gone *)

Lemma find_not_found {A : Type} (f : A → bool) (l : list A) :
  Forall (λ x, f x = false) l → find f l = None.
Proof. induction 1 as [|x l Hx _ IH]; cbn; [done|]. by rewrite Hx. Qed.

(** C9, as stated, fails: after both purchases of the shop the album is
    deleted.  The token matches the album's order, whose product is
    gone, but it also matches the older order for the ebook, which the
    lookup returns: download answers with the ebook's file and raises
    nothing. *)
Lemma download_deleted_product_other_file :
  let tok := "0beb15f8b5037d651ea1d0b7d78e476aa7676cf232ec89b99c3665377fe6625b" in
  step Shop.db2 Shop.db2_deleted
  ∧ (∃ d, d ∈ db_order Shop.db2_deleted
          ∧ Order.download_url d.2 = "/download/" +:+ tok
          ∧ ObjectId_of_str (Order.product_id d.2) = Some Shop.P2
          ∧ db_product Shop.db2 !! Shop.P2 = Some Shop.album
          ∧ db_product Shop.db2_deleted !! Shop.P2 = None)
  ∧ download tok Shop.db2_deleted = (Return "https://cdn/x.pdf", Shop.db2_deleted)
  ∧ download tok Shop.db2_deleted
    ≠ (Raise (HTTPException 404 "Product missing"), Shop.db2_deleted).
Proof.
  intros tok.
  assert (H : download tok Shop.db2_deleted
              = (Return "https://cdn/x.pdf", Shop.db2_deleted))
    by (vm_compute; reflexivity).
  split_and!.
  - apply (step_products (delete Shop.P2 (db_product Shop.db2)) Shop.db2).
  - exists (Shop.O2, order_of Shop.env2 Shop.buy2 (Shop.P2, Shop.album)).
    split_and!; [|vm_compute; reflexivity..].
    assert (Ho : db_order Shop.db2_deleted
                 = [(Shop.O1, order_of Shop.env1 Shop.buy1 (Shop.P1, Shop.ebook));
                    (Shop.O2, order_of Shop.env2 Shop.buy2 (Shop.P2, Shop.album))])
      by (vm_compute; reflexivity).
    rewrite Ho. apply list_elem_of_further, list_elem_of_here.
  - exact H.
  - rewrite H. intros [=].
Qed.

(** C9, amended: when the first stored order that carries
    ["/download/" ++ token] (the one the lookup returns) refers to a
    key under which the store holds no product any more, download
    raises 404 "Product missing", which differs from the
    404 "Invalid token" of an unknown token. *)
Theorem download_product_deleted (tok : string) (db : Database)
    (before after : list (ObjectId * Order.t)) (d : ObjectId * Order.t) (k : ObjectId) :
  db_order db = before ++ d :: after →
  Forall (λ d', Order.download_url d'.2 ≠ "/download/" +:+ tok) before →
  Order.download_url d.2 = "/download/" +:+ tok →
  ObjectId_of_str (Order.product_id d.2) = Some k →
  db_product db !! k = None →
  download tok db = (Raise (HTTPException 404 "Product missing"), db)
  ∧ download tok db ≠ (Raise (HTTPException 404 "Invalid token"), db).
Proof.
  intros Horder Hbefore Hurl Hk Hnone.
  assert (H : download tok db = (Raise (HTTPException 404 "Product missing"), db)).
  { rewrite download_eq, Horder, find_app.
    rewrite find_not_found.
    - cbn [find]. unfold download_url. rewrite Hurl, String.eqb_refl.
      by rewrite Hk, Hnone.
    - eapply Forall_impl; [exact Hbefore|]. intros d' Hd'. by apply String.eqb_neq. }
  split; [exact H|]. rewrite H. intros [=].
Qed.

Lemma download_product_deleted_witness :
  download "0beb15f8b5037d651ea1d0b7d78e476aa7676cf232ec89b99c3665377fe6625b"
    Shop.db1_deleted
  = (Raise (HTTPException 404 "Product missing"), Shop.db1_deleted).
Proof.
  apply (download_product_deleted _ Shop.db1_deleted [] []
           (Shop.O1, order_of Shop.env1 Shop.buy1 (Shop.P1, Shop.ebook)) Shop.P1).
  - vm_compute. reflexivity.
  - apply Forall_nil_2.
  - vm_compute. reflexivity.
  - vm_compute. reflexivity.
  - vm_compute. reflexivity.
Defined.

(** ** Product ids of stored orders *)

Lemma keyed_order_of (env : Env) (payload : CheckoutIn.t) (k : ObjectId) (p : Product.t)
    (oid : ObjectId) :
  ObjectId_of_str (CheckoutIn.product_id payload) = Some k →
  keyed (oid, order_of env payload (k, p)).
Proof.
  intros Hk. exists k. cbn. split; [done|]. by apply (ObjectId_of_str_parsed _ _ Hk).
Qed.

Lemma checkout_keyed (env : Env) (payload : CheckoutIn.t) (db : Database) :
  Forall keyed (db_order db) → Forall keyed (db_order (checkout env payload db).2).
Proof.
  intros Hall. rewrite checkout_eq.
  destruct (ObjectId_of_str _) as [k|] eqn:Hk; [|done].
  destruct (db_product db !! k) as [p|]; [|done].
  cbn zeta. destruct (print env _); cbn;
    (apply Forall_app; split; [done|]);
    apply Forall_singleton; by apply keyed_order_of.
Qed.

Lemma reachable_keyed (db : Database) : reachable db → Forall keyed (db_order db).
Proof.
  induction 1 as [products | db db' _ IH Hstep]; [apply Forall_nil_2|].
  destruct Hstep as [env payload db r db' H | tok db r db' H | products db].
  - pose proof (checkout_keyed env payload db IH) as Hc. by rewrite H in Hc.
  - pose proof (download_store tok db) as Hs. rewrite H in Hs. cbn in Hs. by subst.
  - exact IH.
Qed.

(** C10: the order a checkout inserts has as [product_id] the text of
    the key of a product of the store, and that text parses back to the
    key; hence in every store the operations can build, each stored
    order's [product_id] parses, and download never raises [InvalidId]:
    it returns a file URL or raises one of its two 404 errors. *)
Theorem stored_product_ids_parse (db : Database) :
  reachable db →
  (∀ env payload r db',
     checkout env payload db = (r, db') →
     db_order db' = db_order db
     ∨ ∃ k p o,
         db_product db !! k = Some p
         ∧ db_order db' = db_order db ++ [(inserted_id env, o)]
         ∧ Order.product_id o = str_of_ObjectId k
         ∧ ObjectId_of_str (Order.product_id o) = Some k)
  ∧ Forall keyed (db_order db)
  ∧ ∀ tok,
      (∃ url, download tok db = (Return url, db))
      ∨ download tok db = (Raise (HTTPException 404 "Invalid token"), db)
      ∨ download tok db = (Raise (HTTPException 404 "Product missing"), db).
Proof.
  intros Hreach. pose proof (reachable_keyed db Hreach) as Hall. split_and!.
  - intros env payload r db' H. rewrite checkout_eq in H.
    destruct (ObjectId_of_str _) as [k|] eqn:Hk; [|left; by injection H as _ <-].
    destruct (db_product db !! k) as [p|] eqn:Hp; [|left; by injection H as _ <-].
    right. exists k, p, (order_of env payload (k, p)).
    cbn zeta in H.
    assert (db' = inserted (inserted_id env) (order_of env payload (k, p)) db) as ->.
    { destruct (print env _); by injection H as _ <-. }
    split_and!; [done|done|done|]. by apply (ObjectId_of_str_parsed _ _ Hk).
  - exact Hall.
  - intros tok. rewrite download_eq.
    destruct (find _ _) as [d|] eqn:Hfind; [|by right; left].
    apply find_some in Hfind as [Hd _]. apply list_elem_of_In in Hd.
    rewrite Forall_forall in Hall. destruct (Hall d Hd) as (k & _ & Hk).
    rewrite Hk. destruct (db_product db !! k) as [p|]; [left; by eexists|by right; right].
Qed.

Lemma stored_product_ids_parse_witness :
  Forall keyed (db_order Shop.db1).
Proof.
  apply (stored_product_ids_parse Shop.db1).
  eapply reachable_step; [apply (reachable_init (db_product Shop.db0))|].
  apply (step_checkout Shop.env1 Shop.buy1 Shop.db0
           (Return (out_of Shop.O1 (order_of Shop.env1 Shop.buy1 (Shop.P1, Shop.ebook))))).
  vm_compute. reflexivity.
Defined.

(** * Further properties of the handlers *)

(** ** Shape of invoice numbers and tokens *)

Lemma upper_ascii_hex (c : ascii) :
  is_lower_hex c = true → is_upper_hex (upper_ascii c) = true.
Proof. destruct c as [[] [] [] [] [] [] [] []]; try discriminate; reflexivity. Qed.

Lemma upper_hex (s : string) :
  all_chars is_lower_hex s = true → all_chars is_upper_hex (upper s) = true.
Proof.
  induction s as [|c s IH]; cbn; [done|].
  intros [Hc Hs]%andb_true_iff. by rewrite (upper_ascii_hex c Hc), (IH Hs).
Qed.

Lemma invoice_number_hex (seed : string) :
  all_chars is_upper_hex (invoice_number seed) = true.
Proof. apply upper_hex, all_chars_str_take, hexdigest_lower. Qed.

Lemma issued_order_of (env : Env) (payload : CheckoutIn.t) (prod : ObjectId * Product.t)
    (oid : ObjectId) :
  issued (oid, order_of env payload prod).
Proof.
  split_and!; cbn; [done|apply length_invoice_number|apply invoice_number_hex|done].
Qed.

(** X1: on success the invoice number is made of 10 characters among
    [0-9A-F], and the download URL is ["/download/"] followed by 64
    characters among [0-9a-f]. *)
Theorem checkout_formats (env : Env) (payload : CheckoutIn.t) (db db' : Database)
    (out : OrderOut.t) :
  checkout env payload db = (Return out, db') →
  String.length (OrderOut.invoice_number out) = 10%nat
  ∧ all_chars is_upper_hex (OrderOut.invoice_number out) = true
  ∧ ∃ tok, OrderOut.download_url out = "/download/" +:+ tok
           ∧ String.length tok = 64%nat
           ∧ all_chars is_lower_hex tok = true.
Proof.
  intros H. rewrite checkout_eq in H.
  destruct (ObjectId_of_str _) as [k|]; [|done].
  destruct (db_product db !! k) as [p|]; [|done].
  cbn zeta in H. destruct (print env _); [done|].
  injection H as <- _. cbn.
  split; [apply length_invoice_number|]. split; [apply invoice_number_hex|].
  eexists. split; [reflexivity|]. split; [apply length_hexdigest|apply hexdigest_lower].
Qed.

Lemma checkout_formats_witness :
  String.length (OrderOut.invoice_number
                   (out_of Shop.O1 (order_of Shop.env1 Shop.buy1 (Shop.P1, Shop.ebook))))
  = 10%nat.
Proof.
  apply (checkout_formats Shop.env1 Shop.buy1 Shop.db0 Shop.db1).
  vm_compute. reflexivity.
Defined.

(** ** What checkout returns is what it stored *)

(** X2: on success the products are untouched and exactly one order is
    appended to the orders, which are otherwise as they were; the new
    order is the one the response describes: it sits under the key
    whose text is the returned [id], carries the returned invoice
    number and download URL, the buyer's e-mail, and as [product_id]
    the lower-case text of the product's key. *)
Theorem checkout_response_matches_order (env : Env) (payload : CheckoutIn.t)
    (db db' : Database) (out : OrderOut.t) :
  checkout env payload db = (Return out, db') →
  db_product db' = db_product db
  ∧ ∃ oid o k,
      db_order db' = db_order db ++ [(oid, o)]
      ∧ oid = inserted_id env
      ∧ OrderOut.id out = str_of_ObjectId oid
      ∧ OrderOut.invoice_number out = Order.invoice_number o
      ∧ OrderOut.download_url out = Order.download_url o
      ∧ Order.buyer_email o = CheckoutIn.buyer_email payload
      ∧ ObjectId_of_str (CheckoutIn.product_id payload) = Some k
      ∧ Order.product_id o = str_of_ObjectId k.
Proof.
  intros H. rewrite checkout_eq in H.
  destruct (ObjectId_of_str _) as [k|] eqn:Hk; [|done].
  destruct (db_product db !! k) as [p|]; [|done].
  cbn zeta in H. destruct (print env _); [done|].
  injection H as <- <-. split; [done|].
  exists (inserted_id env), (order_of env payload (k, p)), k. cbn.
  split_and!; done.
Qed.

Lemma checkout_response_matches_order_witness :
  db_product Shop.db1 = db_product Shop.db0
  ∧ ∃ oid o k,
      db_order Shop.db1 = db_order Shop.db0 ++ [(oid, o)]
      ∧ oid = Shop.O1
      ∧ "65a1f0c30000000000000001" = str_of_ObjectId oid
      ∧ "E630E9F895" = Order.invoice_number o
      ∧ "/download/0beb15f8b5037d651ea1d0b7d78e476aa7676cf232ec89b99c3665377fe6625b"
        = Order.download_url o
      ∧ Order.buyer_email o = "a@b.com"
      ∧ ObjectId_of_str "65a1f0c2d3e4b5a697887766" = Some k
      ∧ Order.product_id o = str_of_ObjectId k.
Proof.
  apply (checkout_response_matches_order Shop.env1 Shop.buy1 Shop.db0 Shop.db1
           {| OrderOut.id := "65a1f0c30000000000000001";
              OrderOut.invoice_number := "E630E9F895";
              OrderOut.download_url :=
                "/download/0beb15f8b5037d651ea1d0b7d78e476aa7676cf232ec89b99c3665377fe6625b" |}).
  vm_compute. reflexivity.
Defined.

(** ** A token stays valid *)

Lemma find_app_Some {A : Type} (f : A → bool) (l1 l2 : list A) (x : A) :
  find f l1 = Some x → find f (l1 ++ l2) = Some x.
Proof. intros H. by rewrite find_app, H. Qed.

(** X3: after a successful checkout for the product under key [k] (no
    earlier order carrying the returned URL for another product),
    whatever operations follow, the token of the returned URL is never
    an invalid token: download returns the [file_url] that the product
    under [k] has at that moment, or raises 404 "Product missing" when
    no product is under [k] any more. *)
Theorem token_stays_valid (env : Env) (payload : CheckoutIn.t) (db db' db'' : Database)
    (out : OrderOut.t) (k : ObjectId) (tok : string) :
  ObjectId_of_str (CheckoutIn.product_id payload) = Some k →
  Forall (λ d, Order.download_url d.2 = OrderOut.download_url out →
               Order.product_id d.2 = str_of_ObjectId k) (db_order db) →
  checkout env payload db = (Return out, db') →
  OrderOut.download_url out = "/download/" +:+ tok →
  rtc step db' db'' →
  download tok db''
  = match db_product db'' !! k with
    | Some p => (Return (Product.file_url p), db'')
    | None => (Raise (HTTPException 404 "Product missing"), db'')
    end.
Proof.
  intros Hk Hfree H Hurl [later Hlater]%steps_orders.
  rewrite checkout_eq, Hk in H.
  destruct (db_product db !! k) as [p|]; [|done].
  cbn zeta in H. destruct (print env _); [done|].
  injection H as <- <-. cbn in Hurl, Hfree, Hlater.
  assert (Hfind : ∃ d, find (λ d, String.eqb (Order.download_url d.2) (download_url tok))
                         (db_order db'') = Some d
                       ∧ Order.product_id d.2 = str_of_ObjectId k).
  { rewrite Hlater.
    destruct (find (λ d, String.eqb (Order.download_url d.2) (download_url tok))
                (db_order db)) as [d|] eqn:Hfind.
    - exists d. split; [by apply find_app_Some, find_app_Some|].
      apply find_some in Hfind as [Hd Heq]. apply String.eqb_eq in Heq.
      rewrite Forall_forall in Hfree. apply Hfree; [by apply list_elem_of_In|].
      by rewrite Heq, Hurl.
    - eexists. split.
      + apply find_app_Some. rewrite find_app, Hfind. cbn.
        rewrite Hurl. unfold download_url. by rewrite String.eqb_refl.
      + done. }
  destruct Hfind as (d & Hfind & Hid).
  rewrite download_eq, Hfind, Hid, (ObjectId_of_str_parsed _ _ Hk).
  destruct (db_product db'' !! k); done.
Qed.

Lemma token_stays_valid_witness :
  download "0beb15f8b5037d651ea1d0b7d78e476aa7676cf232ec89b99c3665377fe6625b"
    Shop.db1_deleted
  = match db_product Shop.db1_deleted !! Shop.P1 with
    | Some p => (Return (Product.file_url p), Shop.db1_deleted)
    | None => (Raise (HTTPException 404 "Product missing"), Shop.db1_deleted)
    end.
Proof.
  apply (token_stays_valid Shop.env1 Shop.buy1 Shop.db0 Shop.db1 Shop.db1_deleted
           (out_of Shop.O1 (order_of Shop.env1 Shop.buy1 (Shop.P1, Shop.ebook)))).
  - vm_compute. reflexivity.
  - apply Forall_nil_2.
  - vm_compute. reflexivity.
  - vm_compute. reflexivity.
  - apply rtc_once. apply (step_products (delete Shop.P1 (db_product Shop.db1)) Shop.db1).
Defined.

(** ** What the stored orders look like *)

Lemma checkout_issued (env : Env) (payload : CheckoutIn.t) (db : Database) :
  Forall issued (db_order db) → Forall issued (db_order (checkout env payload db).2).
Proof.
  intros Hall. rewrite checkout_eq.
  destruct (ObjectId_of_str _) as [k|]; [|done].
  destruct (db_product db !! k) as [p|]; [|done].
  cbn zeta. destruct (print env _); cbn;
    (apply Forall_app; split; [done|]);
    apply Forall_singleton, issued_order_of.
Qed.

Lemma reachable_issued (db : Database) : reachable db → Forall issued (db_order db).
Proof.
  induction 1 as [products | db db' _ IH Hstep]; [apply Forall_nil_2|].
  destruct Hstep as [env payload db r db' H | tok db r db' H | products db].
  - pose proof (checkout_issued env payload db IH) as Hc. by rewrite H in Hc.
  - pose proof (download_store tok db) as Hs. rewrite H in Hs. cbn in Hs. by subst.
  - exact IH.
Qed.

(** X4: in every store the operations can build, each order has the
    currency "USD", an invoice number of 10 characters among [0-9A-F],
    and a download URL that is ["/download/"] followed by the SHA-256
    of its own [invoice_number ++ "-" ++ buyer_email]; so two stored
    orders with the same invoice number and buyer e-mail have the same
    download URL. *)
Theorem stored_orders_shape (db : Database) :
  reachable db →
  Forall (λ d,
    Order.currency d.2 = "USD"
    ∧ String.length (Order.invoice_number d.2) = 10%nat
    ∧ all_chars is_upper_hex (Order.invoice_number d.2) = true
    ∧ Order.download_url d.2
      = "/download/" +:+ SHA256.hexdigest
                           (Order.invoice_number d.2 +:+ "-" +:+ Order.buyer_email d.2))
    (db_order db)
  ∧ ∀ d1 d2, d1 ∈ db_order db → d2 ∈ db_order db →
      Order.invoice_number d1.2 = Order.invoice_number d2.2 →
      Order.buyer_email d1.2 = Order.buyer_email d2.2 →
      Order.download_url d1.2 = Order.download_url d2.2.
Proof.
  intros Hall%reachable_issued. split; [exact Hall|].
  rewrite Forall_forall in Hall.
  intros d1 d2 (_ & _ & _ & H1)%Hall (_ & _ & _ & H2)%Hall Hinv Hmail.
  by rewrite H1, H2, Hinv, Hmail.
Qed.

Lemma stored_orders_shape_witness :
  Forall (λ d,
    Order.currency d.2 = "USD"
    ∧ String.length (Order.invoice_number d.2) = 10%nat
    ∧ all_chars is_upper_hex (Order.invoice_number d.2) = true
    ∧ Order.download_url d.2
      = "/download/" +:+ SHA256.hexdigest
                           (Order.invoice_number d.2 +:+ "-" +:+ Order.buyer_email d.2))
    (db_order Shop.db2).
Proof.
  apply (stored_orders_shape Shop.db2).
  eapply reachable_step;
    [eapply reachable_step; [apply (reachable_init (db_product Shop.db0))|]|].
  - apply (step_checkout Shop.env1 Shop.buy1 Shop.db0
             (Return (out_of Shop.O1 (order_of Shop.env1 Shop.buy1 (Shop.P1, Shop.ebook))))
             Shop.db1).
    vm_compute. reflexivity.
  - apply (step_checkout Shop.env2 Shop.buy2 Shop.db1
             (Return (out_of Shop.O2 (order_of Shop.env2 Shop.buy2 (Shop.P2, Shop.album))))
             Shop.db2).
    vm_compute. reflexivity.
Defined.

(** X5: in every store the operations can build, a token that is not
    made of exactly 64 characters among [0-9a-f] matches no order:
    download raises 404 "Invalid token" (so does, for instance, the
    upper-case spelling of an issued token). *)
Theorem download_malformed_token (tok : string) (db : Database) :
  reachable db →
  String.length tok ≠ 64%nat ∨ all_chars is_lower_hex tok = false →
  download tok db = (Raise (HTTPException 404 "Invalid token"), db).
Proof.
  intros Hall%reachable_issued Hbad. rewrite download_eq.
  destruct (find _ _) as [d|] eqn:Hfind; [|done].
  apply find_some in Hfind as [Hd Hurl]. apply String.eqb_eq in Hurl.
  rewrite Forall_forall in Hall.
  destruct (Hall d) as (_ & _ & _ & Hshape); [by apply list_elem_of_In|].
  rewrite Hshape in Hurl. apply download_url_inj in Hurl. subst tok.
  unfold token in Hbad. destruct Hbad as [Hlen | Hhex].
  - by rewrite length_hexdigest in Hlen.
  - by rewrite hexdigest_lower in Hhex.
Qed.

Lemma download_malformed_token_witness :
  download "0BEB15F8B5037D651EA1D0B7D78E476AA7676CF232EC89B99C3665377FE6625B" Shop.db1
  = (Raise (HTTPException 404 "Invalid token"), Shop.db1)
  ∧ download "" Shop.db1 = (Raise (HTTPException 404 "Invalid token"), Shop.db1).
Proof.
  assert (Hreach : reachable Shop.db1).
  { eapply reachable_step; [apply (reachable_init (db_product Shop.db0))|].
    apply (step_checkout Shop.env1 Shop.buy1 Shop.db0
             (Return (out_of Shop.O1 (order_of Shop.env1 Shop.buy1 (Shop.P1, Shop.ebook))))
             Shop.db1).
    vm_compute. reflexivity. }
  split.
  - apply download_malformed_token; [exact Hreach|]. right. reflexivity.
  - apply download_malformed_token; [exact Hreach|]. left. discriminate.
Defined.

(** ** Product ids are read without regard to letter case *)

Lemma length_lower (s : string) : String.length (lower s) = String.length s.
Proof. induction s as [|c s IH]; cbn; [done|]. by rewrite IH. Qed.

Lemma hexval_upper (c : ascii) : Hex.hexval (upper_ascii c) = Hex.hexval c.
Proof. destruct c as [[] [] [] [] [] [] [] []]; reflexivity. Qed.

Lemma hexval_lower (c : ascii) : Hex.hexval (lower_ascii c) = Hex.hexval c.
Proof. destruct c as [[] [] [] [] [] [] [] []]; reflexivity. Qed.

Lemma fromhex_case (f : ascii → ascii) (g : string → string) :
  (∀ c, Hex.hexval (f c) = Hex.hexval c) →
  (∀ c s, g (String c s) = String (f c) (g s)) → g EmptyString = EmptyString →
  ∀ n s, (String.length s ≤ n)%nat → fromhex (g s) = fromhex s.
Proof.
  intros Hf Hcons Hnil. induction n as [|n IH]; intros [|c [|d s]] Hlen; cbn in Hlen;
    rewrite ?Hcons, ?Hnil; try done; try lia.
  cbn. rewrite !Hf. rewrite (IH s); [done|]. lia.
Qed.

Lemma ObjectId_of_str_upper (s : string) : ObjectId_of_str (upper s) = ObjectId_of_str s.
Proof.
  unfold ObjectId_of_str. rewrite length_upper.
  case_decide; [|done].
  by apply (fromhex_case upper_ascii upper hexval_upper) with (n := String.length s).
Qed.

Lemma ObjectId_of_str_lower (s : string) : ObjectId_of_str (lower s) = ObjectId_of_str s.
Proof.
  unfold ObjectId_of_str. rewrite length_lower.
  case_decide; [|done].
  by apply (fromhex_case lower_ascii lower hexval_lower) with (n := String.length s).
Qed.

(** X6: checkout reads an ASCII product id without regard to letter
    case: with the id spelled in upper or in lower case, the orders of
    the resulting store record the same products ([product_id], title
    and amount) as with the id as given; in particular an order is
    inserted with one spelling exactly when it is with the other, and
    it is for the same product. *)
Theorem checkout_product_id_case (env : Env) (s email : string) (db : Database) :
  all_chars is_ascii s = true →
  let bought (payload : CheckoutIn.t) :=
    (λ d, (Order.product_id d.2, Order.product_title d.2, Order.amount d.2))
      <$> db_order (checkout env payload db).2 in
  bought (CheckoutIn.mk (upper s) email) = bought (CheckoutIn.mk s email)
  ∧ bought (CheckoutIn.mk (lower s) email) = bought (CheckoutIn.mk s email).
Proof.
  intros _ bought. unfold bought. rewrite !checkout_eq. cbn [CheckoutIn.product_id].
  rewrite ObjectId_of_str_upper, ObjectId_of_str_lower.
  destruct (ObjectId_of_str s) as [k|]; [|done].
  destruct (db_product db !! k) as [p|]; [|done].
  cbn zeta. split.
  - destruct (print env _), (print env _); cbn; by rewrite !fmap_app.
  - destruct (print env _), (print env _); cbn; by rewrite !fmap_app.
Qed.

Lemma checkout_product_id_case_witness :
  (λ d, (Order.product_id d.2, Order.product_title d.2, Order.amount d.2))
    <$> db_order (checkout Shop.env2
                    (CheckoutIn.mk (upper "65a1F0c2d3E4b5a697887767") "a@b.com") Shop.db1).2
  = (λ d, (Order.product_id d.2, Order.product_title d.2, Order.amount d.2))
      <$> db_order (checkout Shop.env2
                      (CheckoutIn.mk "65a1F0c2d3E4b5a697887767" "a@b.com") Shop.db1).2.
Proof.
  apply (checkout_product_id_case Shop.env2 "65a1F0c2d3E4b5a697887767" "a@b.com" Shop.db1).
  reflexivity.
Defined.

(** ** The admin check *)

Lemma lower_upper_ascii (c : ascii) : lower_ascii (upper_ascii c) = lower_ascii c.
Proof. destruct c as [[] [] [] [] [] [] [] []]; reflexivity. Qed.

Lemma lower_lower_ascii (c : ascii) : lower_ascii (lower_ascii c) = lower_ascii c.
Proof. destruct c as [[] [] [] [] [] [] [] []]; reflexivity. Qed.

Lemma lower_upper (s : string) : lower (upper s) = lower s.
Proof. induction s as [|c s IH]; cbn; [done|]. by rewrite lower_upper_ascii, IH. Qed.

Lemma lower_lower (s : string) : lower (lower s) = lower s.
Proof. induction s as [|c s IH]; cbn; [done|]. by rewrite lower_lower_ascii, IH. Qed.

(** X7: [whoami] and [require_admin] accept the same credentials and
    raise the same 401 on the others; [whoami] answers with the admin
    address as configured, whatever the spelling of the user name. *)
Theorem whoami_agrees_with_require_admin (creds : HTTPBasicCredentials.t) :
  whoami creds
  = match require_admin creds with
    | Return _ => Return "admin@admin.in"
    | Raise e => Raise e
    end.
Proof.
  unfold whoami, require_admin.
  destruct (String.eqb (lower _) _), (String.eqb (HTTPBasicCredentials.password _) _); done.
Qed.

(** X8: the admin check ignores the letter case of an ASCII user name
    and not that of the password: for a user name of ASCII characters
    it gives the same answer with the name spelled in upper or lower
    case, and it accepts exactly when the lower-cased name is
    "admin@admin.in" and the password is "Admin" itself. *)
Theorem require_admin_case (user pass : string) :
  all_chars is_ascii user = true →
  require_admin (HTTPBasicCredentials.mk (upper user) pass)
  = require_admin (HTTPBasicCredentials.mk user pass)
  ∧ require_admin (HTTPBasicCredentials.mk (lower user) pass)
    = require_admin (HTTPBasicCredentials.mk user pass)
  ∧ (require_admin (HTTPBasicCredentials.mk user pass) = Return true
     ↔ lower user = "admin@admin.in" ∧ pass = "Admin").
Proof.
  intros _.
  unfold require_admin. cbn [HTTPBasicCredentials.username HTTPBasicCredentials.password].
  rewrite lower_upper, lower_lower. split_and!; [done|done|].
  change (lower ADMIN_EMAIL) with "admin@admin.in". unfold ADMIN_PASSWORD.
  destruct (String.eqb_spec (lower user) "admin@admin.in") as [Hu|Hu],
           (String.eqb_spec pass "Admin") as [Hp|Hp]; cbn.
  - split; [intros _; by split|done].
  - split; [intros [=]|intros [_ ?]; done].
  - split; [intros [=]|intros [? _]; done].
  - split; [intros [=]|intros [? _]; done].
Qed.

Lemma require_admin_case_witness :
  require_admin (HTTPBasicCredentials.mk (upper "Admin@Admin.in") "Admin")
  = require_admin (HTTPBasicCredentials.mk "Admin@Admin.in" "Admin").
Proof.
  refine (proj1 (require_admin_case "Admin@Admin.in" "Admin" _)).
  reflexivity.
Defined.

(** ** The product listing *)

Lemma fold_left_snoc_map {A B : Type} (f : A → B) (l : list A) (acc : list B) :
  fold_left (λ out x, out ++ [f x]) l acc = acc ++ map f l.
Proof.
  revert acc. induction l as [|x l IH]; intros acc; cbn.
  - by rewrite app_nil_r.
  - by rewrite IH, <- (assoc_L (++)).
Qed.

Lemma list_products_map (items : list (ObjectId * Product.t)) :
  list_products items
  = map (λ it, {| ProductOut.id := str_of_ObjectId it.1;
                  ProductOut.title := Product.title it.2;
                  ProductOut.description := Product.description it.2;
                  ProductOut.price := Product.price it.2;
                  ProductOut.file_url := Product.file_url it.2 |}) items.
Proof. unfold list_products. by rewrite fold_left_snoc_map. Qed.

(** X9: the listing has one entry per document, in the order of the
    documents, with the document's title, description, price and file
    URL; and when the keys are 12 bytes long, the [id] of each entry
    parses back to the key of its document. *)
Theorem list_products_entries (items : list (ObjectId * Product.t)) :
  Forall (λ it, length it.1 = 12%nat) items →
  Forall2 (λ it out,
             ObjectId_of_str (ProductOut.id out) = Some it.1
             ∧ ProductOut.title out = Product.title it.2
             ∧ ProductOut.description out = Product.description it.2
             ∧ ProductOut.price out = Product.price it.2
             ∧ ProductOut.file_url out = Product.file_url it.2)
          items (list_products items).
Proof.
  rewrite list_products_map.
  induction 1 as [|it items Hlen _ IH]; cbn; constructor; [|exact IH].
  split_and!; try done. by apply ObjectId_of_str_str.
Qed.

Lemma list_products_entries_witness :
  Forall2 (λ it out,
             ObjectId_of_str (ProductOut.id out) = Some it.1
             ∧ ProductOut.title out = Product.title it.2
             ∧ ProductOut.description out = Product.description it.2
             ∧ ProductOut.price out = Product.price it.2
             ∧ ProductOut.file_url out = Product.file_url it.2)
          [(Shop.P1, Shop.ebook); (Shop.P2, Shop.album)]
          (list_products [(Shop.P1, Shop.ebook); (Shop.P2, Shop.album)]).
Proof.
  apply list_products_entries.
  repeat constructor.
Defined.

(** X10: every product the listing shows can be bought with the [id]
    shown: when the listed documents are documents of the store under
    12-byte keys and the notification print returns, checkout with a
    listed [id] succeeds and inserts an order with the listed title
    and price. *)
Theorem listed_product_can_be_bought (env : Env) (email : string) (db : Database)
    (items : list (ObjectId * Product.t)) (entry : ProductOut.t) :
  Forall (λ it, length it.1 = 12%nat ∧ db_product db !! it.1 = Some it.2) items →
  (∀ text, print env text = None) →
  entry ∈ list_products items →
  ∃ out o,
    checkout env (CheckoutIn.mk (ProductOut.id entry) email) db
    = (Return out, inserted (inserted_id env) o db)
    ∧ Order.product_id o = ProductOut.id entry
    ∧ Order.product_title o = ProductOut.title entry
    ∧ Order.amount o = ProductOut.price entry.
Proof.
  intros Hitems Hprint Hentry.
  rewrite list_products_map in Hentry.
  apply list_elem_of_In, in_map_iff in Hentry as (it & <- & Hit).
  rewrite Forall_forall in Hitems.
  destruct (Hitems it) as [Hlen Hdoc]; [by apply list_elem_of_In|].
  pose proof (checkout_eq env (CheckoutIn.mk (str_of_ObjectId it.1) email) db) as Hc.
  cbv [CheckoutIn.product_id] in Hc.
  assert (Hkey : ObjectId_of_str (str_of_ObjectId it.1) = Some it.1)
    by apply ObjectId_of_str_str, Hlen.
  assert (Hdoc' : db_product db !! it.1 = Some it.2) by exact Hdoc.
  rewrite Hkey, Hdoc', Hprint in Hc.
  eexists _, _. split; [exact Hc|done].
Qed.

Lemma listed_product_can_be_bought_witness :
  ∃ out o,
    checkout Shop.env2 (CheckoutIn.mk "65a1f0c2d3e4b5a697887767" "c@d.org") Shop.db1
    = (Return out, inserted Shop.O2 o Shop.db1)
    ∧ Order.product_id o = "65a1f0c2d3e4b5a697887767"
    ∧ Order.product_title o = "Album"
    ∧ Order.amount o = PyFloat "4.5".
Proof.
  apply (listed_product_can_be_bought Shop.env2 "c@d.org" Shop.db1
           [(Shop.P1, Shop.ebook); (Shop.P2, Shop.album)]
           {| ProductOut.id := "65a1f0c2d3e4b5a697887767"; ProductOut.title := "Album";
              ProductOut.description := Some "Twelve tracks";
              ProductOut.price := PyFloat "4.5";
              ProductOut.file_url := "https://cdn/y.zip" |}).
  - repeat constructor; vm_compute; reflexivity.
  - reflexivity.
  - vm_compute. apply list_elem_of_further, list_elem_of_here.
Defined.

(** ** The request throttle *)

Lemma filter_all {A : Type} (f : A → bool) (l : list A) :
  (∀ x, x ∈ l → f x = true) → List.filter f l = l.
Proof.
  induction l as [|x l IH]; intros H; cbn; [done|].
  rewrite (H x); [|apply list_elem_of_here].
  f_equal. apply IH. intros y Hy. apply H. by apply list_elem_of_further.
Qed.

Lemma filter_none {A : Type} (f : A → bool) (l : list A) :
  (∀ x, x ∈ l → f x = false) → List.filter f l = [].
Proof.
  induction l as [|x l IH]; intros H; cbn; [done|].
  rewrite (H x); [|apply list_elem_of_here].
  apply IH. intros y Hy. apply H. by apply list_elem_of_further.
Qed.

Lemma length_filter_le {A : Type} (f : A → bool) (l : list A) :
  (length (List.filter f l) ≤ length l)%nat.
Proof. induction l as [|x l IH]; cbn; [done|]. destruct (f x); cbn; lia. Qed.

Lemma sublist_filter_bool {A : Type} (f : A → bool) (l : list A) :
  List.filter f l `sublist_of` l.
Proof.
  induction l as [|x l IH]; cbn; [done|].
  destruct (f x); [by apply sublist_skip|by apply sublist_cons].
Qed.

Lemma throttle_eq (client : option string) (now : PrimFloat.float) (m : Throttle.ip_hits) :
  Throttle.throttle_middleware client now m
  = (Throttle.verdict
       (length (List.filter (Throttle.in_window now) (Throttle.recorded client m))),
     <[Throttle.bucket client :=
         List.filter (Throttle.in_window now) (Throttle.recorded client m) ++ [now]]> m).
Proof.
  unfold Throttle.throttle_middleware, Throttle.verdict, Throttle.recorded, Throttle.bucket.
  rewrite length_app. cbn [length]. rewrite Nat.add_1_r.
  destruct (_ <? _)%nat; done.
Qed.

(** X11: a client with fewer than 50 hits on record is never
    throttled, whenever those hits were made: its request goes on to
    [call_next]. *)
Theorem throttle_below_limit (client : option string) (now : PrimFloat.float)
    (m : Throttle.ip_hits) :
  (length (Throttle.recorded client m) < 50)%nat →
  (Throttle.throttle_middleware client now m).1 = Throttle.call_next.
Proof.
  intros Hlen. rewrite throttle_eq. cbn [fst]. unfold Throttle.verdict.
  pose proof (length_filter_le (Throttle.in_window now) (Throttle.recorded client m)) as Hle.
  destruct (Nat.ltb_spec Throttle.RATE_LIMIT_MAX_REQUESTS
              (S (length (List.filter (Throttle.in_window now) (Throttle.recorded client m)))))
    as [Hlt|_]; [|done].
  unfold Throttle.RATE_LIMIT_MAX_REQUESTS in Hlt. lia.
Qed.

Lemma throttle_below_limit_witness :
  (Throttle.throttle_middleware (Some "10.0.0.7") Throttle.t1
     {[ "10.0.0.7" := [Throttle.t0] ]}).1 = Throttle.call_next.
Proof.
  apply throttle_below_limit. vm_compute. lia.
Defined.

(** X12: whatever it answers, the middleware records the request: the
    client's bucket then holds exactly the hits of the old bucket that
    lie within the window of [now], each as often as it was there and
    in their order, followed by [now]; the buckets of all other clients
    are left as they were. *)
Theorem throttle_records (client : option string) (now : PrimFloat.float)
    (m : Throttle.ip_hits) :
  let m' := (Throttle.throttle_middleware client now m).2 in
  let kept := List.filter (Throttle.in_window now) (Throttle.recorded client m) in
  (∀ ip, ip ≠ Throttle.bucket client → m' !! ip = m !! ip)
  ∧ m' !! Throttle.bucket client = Some (kept ++ [now])
  ∧ kept `sublist_of` Throttle.recorded client m
  ∧ (∀ t, t ∈ kept ↔ t ∈ Throttle.recorded client m ∧ Throttle.in_window now t = true).
Proof.
  intros m' kept. unfold m', kept. rewrite throttle_eq. cbn [snd].
  unfold Throttle.ip_hits in *. split_and!.
  - intros ip Hip. by rewrite lookup_insert_ne.
  - by rewrite lookup_insert_eq.
  - apply sublist_filter_bool.
  - intros t. rewrite !list_elem_of_In. apply filter_In.
Qed.

(** X13: a client that has gone quiet is let in again: when none of
    the hits on record lies within the window of [now], the request
    goes on to [call_next] and the bucket is reduced to [now] alone. *)
Theorem throttle_after_window (client : option string) (now : PrimFloat.float)
    (m : Throttle.ip_hits) :
  (∀ t, t ∈ Throttle.recorded client m → Throttle.in_window now t = false) →
  Throttle.throttle_middleware client now m
  = (Throttle.call_next, <[Throttle.bucket client := [now]]> m).
Proof.
  intros Hold. rewrite throttle_eq, (filter_none _ _ Hold). done.
Qed.

Lemma throttle_after_window_witness :
  Throttle.throttle_middleware None Throttle.t3
    {[ "unknown" := [Throttle.t0; Throttle.t1; Throttle.t2] ]}
  = (Throttle.call_next,
     <["unknown" := [Throttle.t3]]> {[ "unknown" := [Throttle.t0; Throttle.t1; Throttle.t2] ]}).
Proof.
  apply (throttle_after_window None Throttle.t3).
  intros t Ht. vm_compute in Ht.
  apply list_elem_of_In in Ht. cbn in Ht.
  destruct Ht as [<-|[<-|[<-|[]]]]; vm_compute; reflexivity.
Defined.

Lemma serve_in_window (client : option string) (nows : list PrimFloat.float) :
  ∀ m : Throttle.ip_hits,
    (∀ now t, now ∈ nows → t ∈ Throttle.recorded client m →
              Throttle.in_window now t = true) →
    (∀ now t, now ∈ nows → t ∈ nows → Throttle.in_window now t = true) →
    (Throttle.serve client nows m).1
    = map Throttle.verdict (seq (length (Throttle.recorded client m)) (length nows)).
Proof.
  induction nows as [|now nows IH]; intros m Hold Hpair; [done|].
  cbn [Throttle.serve]. rewrite throttle_eq.
  rewrite filter_all; [|intros t Ht; apply Hold; [apply list_elem_of_here|done]].
  set (m1 := <[Throttle.bucket client := Throttle.recorded client m ++ [now]]> m).
  assert (Hrec : Throttle.recorded client m1 = Throttle.recorded client m ++ [now]).
  { unfold Throttle.recorded at 1. unfold m1, Throttle.ip_hits in *.
    by rewrite lookup_insert_eq. }
  specialize (IH m1). rewrite Hrec in IH.
  destruct (Throttle.serve client nows m1) as [rs m2]. cbn in IH |- *.
  rewrite IH.
  - rewrite length_app. cbn. by rewrite Nat.add_1_r.
  - intros now' t Hnow' [Ht | ->%list_elem_of_singleton]%elem_of_app.
    + apply Hold; [by apply list_elem_of_further|done].
    + apply Hpair; [by apply list_elem_of_further|apply list_elem_of_here].
  - intros now' t Hnow' Ht. apply Hpair; by apply list_elem_of_further.
Qed.

(** X14: of the requests that a client without hits on record makes
    within one window (every two of the clock readings less than ten
    seconds apart), the first 50 go on to [call_next] and all the
    following ones are answered 429 "Too many requests". *)
Theorem throttle_burst (client : option string) (nows : list PrimFloat.float)
    (m : Throttle.ip_hits) :
  m !! Throttle.bucket client = None →
  forallb (λ now, forallb (Throttle.in_window now) nows) nows = true →
  (Throttle.serve client nows m).1
  = map (λ j, if (j <? 50)%nat then Throttle.call_next
              else Throttle.JSONResponse 429 "Too many requests")
        (seq 0 (length nows)).
Proof.
  intros Hnone Hpair.
  assert (Hrec : Throttle.recorded client m = []).
  { unfold Throttle.recorded. by rewrite Hnone. }
  rewrite serve_in_window, Hrec.
  - apply map_ext. intros j. unfold Throttle.verdict, Throttle.RATE_LIMIT_MAX_REQUESTS.
    destruct (Nat.ltb_spec 50 (S j)), (Nat.ltb_spec j 50); (done || lia).
  - rewrite Hrec. intros now t _ Ht. by apply elem_of_nil in Ht.
  - intros now t Hnow Ht. rewrite forallb_forall in Hpair.
    apply list_elem_of_In in Hnow, Ht.
    specialize (Hpair now Hnow). rewrite forallb_forall in Hpair. by apply Hpair.
Qed.

Lemma throttle_burst_witness :
  (Throttle.serve (Some "10.0.0.7") (repeat Throttle.t0 25 ++ repeat Throttle.t1 25
                                     ++ repeat Throttle.t2 3) ∅).1
  = repeat Throttle.call_next 50
    ++ repeat (Throttle.JSONResponse 429 "Too many requests") 3.
Proof.
  apply (throttle_burst (Some "10.0.0.7")
           (repeat Throttle.t0 25 ++ repeat Throttle.t1 25 ++ repeat Throttle.t2 3) ∅).
  - reflexivity.
  - vm_compute. reflexivity.
Defined.
